(** * The notification endpoint of graph-calendar-service

    A shallow embedding of [src/routes/listen.js]: the POST /listen handler
    that receives change notifications from Microsoft Graph, authenticates
    them, decrypts encrypted content and emits events to Socket.io rooms.

    The handler is sequential code with side effects on collaborators
    (helpers, console, the response object) and with JavaScript exceptions.
    It is embedded in a state-and-exception monad over a state that holds
    the subscription store and the log of every side effect performed, in
    the order of the calls. *)

From stdpp Require Import gmap strings list.
From Stdlib Require Import ZArith.

Open Scope Z_scope.

(** ** JavaScript values and completions *)

(** An exception value. [TypeError] and [SyntaxError] are the ones the
    runtime itself raises here; [Error] is what a helper throws. *)
Inductive Exn : Type :=
| TypeError (msg : string)
| SyntaxError (msg : string)
| Error (msg : string).

(** The completion of a call: it returns a value or it throws. A rejected
    promise that is awaited is a throw at the [await]. *)
Inductive Completion (A : Type) : Type :=
| Normal (a : A)
| Throw (e : Exn).
Arguments Normal {A} a.
Arguments Throw {A} e.

(** The values that are only passed through by the handler: documents
    parsed from JSON text and projections fetched from Graph. [JSON.parse]
    throws a [SyntaxError] on text that is not JSON. *)
Class Runtime : Type := {
  JsObject : Type;
  empty_object : JsObject;
  JSON_parse : string -> Completion JsObject
}.

(** [process.env]: a variable that is not set reads as [undefined]. *)
Record ProcessEnv : Type := {
  OAUTH_CLIENT_ID : option string;
  OAUTH_TENANT_ID : option string;
  SUBSCRIPTION_CLIENT_STATE : option string;
  PRIVATE_KEY_PATH : option string
}.

(** ** The request *)

Record ResourceData : Type := {
  id : string;
  odata_type : string
}.

Record EncryptedContent : Type := {
  data : string;
  dataSignature : string;
  dataKey : string
}.

(** One entry of [req.body.value], with the attributes of the spec's data
    model. A field that may be missing from the JSON body is an option:
    reading it gives [undefined], and reading a field of [undefined]
    throws. *)
Record Notification : Type := {
  subscriptionId : string;
  clientState : option string;
  changeType : string;
  resource : string;
  resourceData : option ResourceData;
  encryptedContent : option EncryptedContent
}.

Record Body : Type := {
  validationTokens : option (list string);
  value : list Notification
}.

(** The record [dbHelper.getSubscription] resolves to. *)
Record Subscription : Type := {
  userAccountId : string
}.

(** ** The helper modules

    The modules under [../helpers] are the handler's collaborators. Each
    is an interface; a call either returns or throws as its contract in the
    specification says. *)

(** Modelled from the spec: [tokenHelper.isTokenValid] is the TokenVerifier,
    [verify(token, expectedAppId, expectedTenantId) -> bool], which returns
    false and never throws on any failure. *)
Class TokenHelper : Type := {
  isTokenValid : string -> option string -> option string -> bool
}.

(** Modelled from the spec: [certHelper] holds the three steps of the
    EncryptedPayloadDecryptor. Key unwrap and payload decryption fail
    (Malformed, KeyUnwrapFailed) by throwing; signature verification
    answers with a boolean, and may throw on malformed input as well. *)
Class CertHelper : Type := {
  SymmetricKey : Type;
  decryptSymmetricKey : string -> option string -> Completion SymmetricKey;
  verifySignature : string -> string -> SymmetricKey -> Completion bool;
  decryptPayload : string -> SymmetricKey -> Completion string
}.

(** Modelled from the spec: [graph.getGraphClientForUser] builds the client
    of the ResourceFetcher, [get(path, selectFields) -> ResourceProjection |
    Error]; [graph_get client path fields] is
    [client.api(path).select(fields).get()], awaited. The spec has no
    contract for building the client, so that call may throw as well. *)
Class GraphHelper `{Runtime} : Type := {
  MsalClient : Type;
  GraphClient : Type;
  getGraphClientForUser : MsalClient -> string -> Completion GraphClient;
  graph_get : GraphClient -> string -> string -> Completion JsObject
}.

(** The object passed to [emit]: the event's type tag and its resource. *)
Module Dispatch.
Record Data `{Runtime} : Type := {
  type : string;
  resource : JsObject
}.
End Dispatch.

Section Listen.

Context `{RT : Runtime} `{TH : TokenHelper} `{CH : CertHelper}
  `{GH : !GraphHelper}.

Variable env : ProcessEnv.

Record Request : Type := {
  query_validationToken : option string;
  body : Body;
  msalClient : MsalClient
}.

(** ** Side effects, in the order they happen *)

Inductive Effect : Type :=
| ConsoleLogBody (b : Body)
| ConsoleLog (text : string)
| ConsoleError (err : Exn)
| IsTokenValid (token : string) (appId tenantId : option string)
| GetSubscription (subscription_id : string)
| DecryptSymmetricKey (encodedKey : string) (keyPath : option string)
| VerifySignature (encodedSignature signedPayload : string)
    (symmetricKey : SymmetricKey)
| DecryptPayload (encryptedPayload : string) (symmetricKey : SymmetricKey)
| GraphGet (client : GraphClient) (path fields : string)
| Emit (room event : string) (payload : Dispatch.Data)
| ResSet (field val : string)
| ResSend (text : string)
| ResStatusEnd (status : Z).

(** Modelled from the spec: the subscription store behind [dbHelper] is a
    finite map from subscription id to record, and
    [dbHelper.getSubscription] is SubscriptionResolver.lookup, a read by
    id. *)
Record State : Type := mkState {
  subscriptions : gmap string Subscription;
  log : list Effect
}.

Definition M (A : Type) : Type := State -> Completion A * State.

Definition ret {A : Type} (a : A) : M A := fun st => (Normal a, st).

Definition throw {A : Type} (e : Exn) : M A := fun st => (Throw e, st).

Definition bind {A B : Type} (m : M A) (k : A -> M B) : M B :=
  fun st =>
    match m st with
    | (Normal a, st') => k a st'
    | (Throw e, st') => (Throw e, st')
    end.

(** [try { m } catch (err) { h err }] *)
Definition try_catch {A : Type} (m : M A) (h : Exn -> M A) : M A :=
  fun st =>
    match m st with
    | (Normal a, st') => (Normal a, st')
    | (Throw e, st') => h e st'
    end.

(** The value or the exception of a call that was made. *)
Definition complete {A : Type} (c : Completion A) : M A := fun st => (c, st).

Definition perform (e : Effect) : M unit :=
  fun st => (Normal tt, mkState (subscriptions st) (log st ++ [e])).

Definition lookup_subscription (key : string) : M (option Subscription) :=
  fun st => (Normal (subscriptions st !! key), st).

Declare Scope js_scope.
Delimit Scope js_scope with js.
Notation "x <- m ;; k" := (bind m (fun x => k))
  (at level 100, m at next level, right associativity) : js_scope.
Notation "m ;; k" := (bind m (fun _ => k))
  (at level 100, right associativity) : js_scope.
Open Scope js_scope.

(** ** Calls to the collaborators: each call is logged, then completes *)

(** [console.log(JSON.stringify(req.body, null, 2))] *)
Definition console_log_body (b : Body) : M unit := perform (ConsoleLogBody b).

Definition console_log (text : string) : M unit := perform (ConsoleLog text).

Definition console_error (err : Exn) : M unit := perform (ConsoleError err).

Definition tokenHelper_isTokenValid (token : string)
  (appId tenantId : option string) : M bool :=
  perform (IsTokenValid token appId tenantId) ;;
  ret (isTokenValid token appId tenantId).

Definition dbHelper_getSubscription (key : string) : M (option Subscription) :=
  perform (GetSubscription key) ;;
  lookup_subscription key.

Definition certHelper_decryptSymmetricKey (encodedKey : string)
  (keyPath : option string) : M SymmetricKey :=
  perform (DecryptSymmetricKey encodedKey keyPath) ;;
  complete (decryptSymmetricKey encodedKey keyPath).

Definition certHelper_verifySignature (encodedSignature signedPayload : string)
  (symmetricKey : SymmetricKey) : M bool :=
  perform (VerifySignature encodedSignature signedPayload symmetricKey) ;;
  complete (verifySignature encodedSignature signedPayload symmetricKey).

Definition certHelper_decryptPayload (encryptedPayload : string)
  (symmetricKey : SymmetricKey) : M string :=
  perform (DecryptPayload encryptedPayload symmetricKey) ;;
  complete (decryptPayload encryptedPayload symmetricKey).

Definition client_api_select_get (client : GraphClient) (path fields : string)
  : M JsObject :=
  perform (GraphGet client path fields) ;;
  complete (graph_get client path fields).

(** ** Language constructs used by the handler *)

(** Truthiness of a query parameter: [undefined] and the empty string are
    falsy. *)
Definition truthy (v : option string) : bool :=
  match v with
  | Some s => negb (String.eqb s "")
  | None => false
  end.

(** [a == b] on values that are a string or [undefined]. *)
Definition loose_eq (a b : option string) : bool :=
  match a, b with
  | Some x, Some y => String.eqb x y
  | None, None => true
  | _, _ => false
  end.

(** [Array.prototype.reduce] without an initial value: the first element
    is the initial accumulator, and an empty array is a [TypeError]. *)
Definition reduce {A : Type} (f : A -> A -> A) (l : list A) : Completion A :=
  match l with
  | [] => Throw (TypeError "Reduce of empty array with no initial value")
  | x :: rest => Normal (fold_left f rest x)
  end.

(** [await Promise.all(l.map(f))] for an [f] that starts its call at once:
    the calls are made in the order of the array. *)
Fixpoint promise_all_map {A B : Type} (f : A -> M B) (l : list A)
  : M (list B) :=
  match l with
  | [] => ret []
  | x :: rest =>
      y <- f x ;;
      ys <- promise_all_map f rest ;;
      ret (y :: ys)
  end.

(** [for (let i = 0; i < l.length; i++) { body l[i] }] *)
Fixpoint for_each {A : Type} (body : A -> M unit) (l : list A) : M unit :=
  match l with
  | [] => ret tt
  | x :: rest => body x ;; for_each body rest
  end.

(** ** The functions of listen.js *)

(** Sends a notification to a Socket.io room. *)
Definition emitNotification (subscriptionId : string) (data : Dispatch.Data)
  : M unit :=
  perform (Emit subscriptionId "notification_received" data).

(** Processes an encrypted notification. Reading a field of a missing
    [encryptedContent] is a [TypeError]. *)
Definition processEncryptedNotification (notification : Notification)
  : M unit :=
  match encryptedContent notification with
  | None =>
      throw (TypeError "Cannot read properties of undefined (reading 'dataKey')")
  | Some content =>
      symmetricKey <- certHelper_decryptSymmetricKey (dataKey content)
                        (PRIVATE_KEY_PATH env) ;;
      isSignatureValid <- certHelper_verifySignature (dataSignature content)
                            (data content) symmetricKey ;;
      if isSignatureValid : bool then
        decryptedPayload <- certHelper_decryptPayload (data content)
                              symmetricKey ;;
        parsed <- complete (JSON_parse decryptedPayload) ;;
        emitNotification (subscriptionId notification)
          {| Dispatch.type := "chatMessage"; Dispatch.resource := parsed |}
      else ret tt
  end.

(** Processes a non-encrypted notification. The message id is read and
    the client is built before the [try]: a notification without
    [resourceData] is a [TypeError] there, and an exception of
    [getGraphClientForUser] is not caught either. The [return] that ends
    the created branch skips the emit below it, so the two emits are the
    arms of one conditional; the [catch] covers both. *)
Definition processNotification (notification : Notification)
  (msalClient : MsalClient) (userAccountId : string) : M unit :=
  match resourceData notification with
  | None =>
      throw (TypeError "Cannot read properties of undefined (reading 'id')")
  | Some resourceData =>
      let messageId := id resourceData in
      client <- complete (getGraphClientForUser msalClient userAccountId) ;;
      try_catch
        (if String.eqb "created" (changeType notification) then
           event <- client_api_select_get client
                      ("/" +:+ resource notification) "subject,id" ;;
           emitNotification (subscriptionId notification)
             {| Dispatch.type := odata_type resourceData;
                Dispatch.resource := event |}
         else
           emitNotification (subscriptionId notification)
             {| Dispatch.type := "event";
                Dispatch.resource := empty_object |})
        (fun err =>
           console_log ("Error getting event with " +:+ messageId +:+ ":") ;;
           console_error err)
  end.

(** The body of the loop over [req.body.value]. *)
Definition handleNotification (req : Request) (notification : Notification)
  : M unit :=
  if loose_eq (clientState notification) (SUBSCRIPTION_CLIENT_STATE env) then
    subscription <- dbHelper_getSubscription (subscriptionId notification) ;;
    match subscription with
    | Some subscription =>
        match encryptedContent notification with
        | Some _ => processEncryptedNotification notification
        | None =>
            processNotification notification (msalClient req)
              (userAccountId subscription)
        end
    | None => ret tt
    end
  else ret tt.

(** Lines 29 to 40: the validity of the batch's validation tokens. *)
Definition areTokensValid (req : Request) : M bool :=
  match validationTokens (body req) with
  | Some tokens =>
      let appId := OAUTH_CLIENT_ID env in
      let tenantId := OAUTH_TENANT_ID env in
      validationResults <-
        promise_all_map
          (fun token => tokenHelper_isTokenValid token appId tenantId)
          tokens ;;
      complete (reduce andb validationResults)
  | None => ret true
  end.

(** POST /listen. In the first branch the query parameter is a non-empty
    string, which is sent back. *)
Definition router_post (req : Request) : M unit :=
  if truthy (query_validationToken req) then
    perform (ResSet "Content-Type" "text/plain") ;;
    perform (ResSend (default "" (query_validationToken req)))
  else
    console_log_body (body req) ;;
    tokensValid <- areTokensValid req ;;
    (if tokensValid : bool then
       for_each (handleNotification req) (value (body req))
     else ret tt) ;;
    perform (ResStatusEnd 202).

(** ** Observations *)

(** Running a computation on a store, from an empty log: its completion
    and the effects it performed. *)
Definition run {A : Type} (m : M A) (store : gmap string Subscription)
  : Completion A * list Effect :=
  let (r, st) := m (mkState store []) in (r, log st).

(** The dispatch events in a log: room and payload of each emit. *)
Definition dispatches (l : list Effect) : list (string * Dispatch.Data) :=
  omap (fun e => match e with
                 | Emit room _ payload => Some (room, payload)
                 | _ => None
                 end) l.

(** The payload decryptions in a log. *)
Definition decryptions (l : list Effect) : list string :=
  omap (fun e => match e with
                 | DecryptPayload encryptedPayload _ => Some encryptedPayload
                 | _ => None
                 end) l.

(** The resource fetches in a log. *)
Definition fetches (l : list Effect) : list string :=
  omap (fun e => match e with
                 | GraphGet _ path _ => Some path
                 | _ => None
                 end) l.

(** What the handler wrote to the response. *)
Definition responses (l : list Effect) : list Effect :=
  List.filter (fun e => match e with
                        | ResSet _ _ | ResSend _ | ResStatusEnd _ => true
                        | _ => false
                        end) l.

(** The request with another list of notifications in its body. *)
Definition with_value (req : Request) (l : list Notification) : Request :=
  {| query_validationToken := query_validationToken req;
     body := {| validationTokens := validationTokens (body req); value := l |};
     msalClient := msalClient req |}.

(** A computation is framed when it leaves the store as it is and only
    appends to the log, whatever the log holds already. *)
Definition Framed {A : Type} (m : M A) : Prop :=
  forall store l,
    m (mkState store l)
    = (fst (run m store), mkState store (l ++ snd (run m store))).

(** What the handler has done when its loop comes to a notification: the
    log of the body, the token checks and the notifications before it. *)
Definition log_before (req : Request) (before : list Notification)
  (store : gmap string Subscription) : list Effect :=
  ConsoleLogBody (body req)
  :: snd (run (areTokensValid req) store)
  ++ snd (run (for_each (handleNotification req) before) store).

(** What the handler still does once a notification is handled: the
    notifications after it, then 202 if none of them throws. *)
Definition rest_of_batch (req : Request) (after : list Notification)
  (store : gmap string Subscription) : list Effect :=
  match run (for_each (handleNotification req) after) store with
  | (Normal _, d) => d ++ [ResStatusEnd 202]
  | (Throw _, d) => d
  end.

(** The request with another [validationToken] query parameter. *)
Definition with_query (req : Request) (token : option string) : Request :=
  {| query_validationToken := token;
     body := body req;
     msalClient := msalClient req |}.

(** The request without [validationTokens] in its body. *)
Definition without_tokens (req : Request) : Request :=
  {| query_validationToken := query_validationToken req;
     body := {| validationTokens := None; value := value (body req) |};
     msalClient := msalClient req |}.

(** A notification passes the two gates of the loop: its client state is
    the configured one and the store holds its subscription. *)
Definition authenticated (store : gmap string Subscription)
  (n : Notification) : Prop :=
  clientState n = SUBSCRIPTION_CLIENT_STATE env /\
  is_Some (store !! subscriptionId n).

(** A notification that cannot end the batch: it does not pass the gates,
    or it is plain, carries [resourceData] and gets its client built. *)
Definition harmless (req : Request) (store : gmap string Subscription)
  (n : Notification) : Prop :=
  ~ authenticated store n \/
  (encryptedContent n = None /\
   is_Some (resourceData n) /\
   forall subscription,
     store !! subscriptionId n = Some subscription ->
     exists client,
       getGraphClientForUser (msalClient req) (userAccountId subscription)
       = Normal client).

(** An emit is authorised by a list of notifications when it is the
    event [notification_received], sent to the room of an authenticated
    notification of the list. *)
Definition authorised_dispatch (store : gmap string Subscription)
  (ns : list Notification) (e : Effect) : Prop :=
  match e with
  | Emit room event _ =>
      event = "notification_received" /\
      exists n, In n ns /\ subscriptionId n = room /\ authenticated store n
  | _ => True
  end.

(** A call to [certHelper] is justified by a list of notifications when
    it works on the encrypted content of an authenticated notification of
    the list: the key unwrap on its [dataKey] with the configured private
    key, the signature check with the key that was unwrapped, and the
    payload decryption with that key after the signature was found
    valid. *)
Definition justified_crypto (store : gmap string Subscription)
  (ns : list Notification) (e : Effect) : Prop :=
  match e with
  | DecryptSymmetricKey encodedKey keyPath =>
      keyPath = PRIVATE_KEY_PATH env /\
      exists n content,
        In n ns /\ authenticated store n /\
        encryptedContent n = Some content /\ dataKey content = encodedKey
  | VerifySignature encodedSignature signedPayload symmetricKey =>
      exists n content,
        In n ns /\ authenticated store n /\
        encryptedContent n = Some content /\
        dataSignature content = encodedSignature /\
        data content = signedPayload /\
        decryptSymmetricKey (dataKey content) (PRIVATE_KEY_PATH env)
        = Normal symmetricKey
  | DecryptPayload encryptedPayload symmetricKey =>
      exists n content,
        In n ns /\ authenticated store n /\
        encryptedContent n = Some content /\
        data content = encryptedPayload /\
        decryptSymmetricKey (dataKey content) (PRIVATE_KEY_PATH env)
        = Normal symmetricKey /\
        verifySignature (dataSignature content) (data content) symmetricKey
        = Normal true
  | _ => True
  end.

(** A fetch is justified by a request when it asks for the fields subject
    and id of the resource of an authenticated plain notification of the
    request with change type created, on behalf of the user of its
    subscription. *)
Definition justified_fetch (store : gmap string Subscription)
  (req : Request) (e : Effect) : Prop :=
  match e with
  | GraphGet client path fields =>
      fields = "subject,id" /\
      exists n subscription,
        In n (value (body req)) /\
        clientState n = SUBSCRIPTION_CLIENT_STATE env /\
        store !! subscriptionId n = Some subscription /\
        encryptedContent n = None /\
        changeType n = "created" /\
        path = "/" +:+ resource n /\
        getGraphClientForUser (msalClient req) (userAccountId subscription)
        = Normal client
  | _ => True
  end.

End Listen.

(** ** A test double for each collaborator

    Small concrete helpers, used to run the handler on sample batches. *)

Module Fixture.

(** The documents of the samples. *)
Inductive Doc : Type :=
| DocEmpty
| DocNull
| DocEvent (subject key : string).

(** [JSON.parse] on the texts that the samples use: the empty object and
    null parse; the only other text of the samples is the word junk, which
    is not JSON. *)
Definition runtime : Runtime := {|
  JsObject := Doc;
  empty_object := DocEmpty;
  JSON_parse := fun text =>
    if String.eqb text "{}" then Normal DocEmpty
    else if String.eqb text "null" then Normal DocNull
    else Throw (SyntaxError "Unexpected token j in JSON at position 0")
|}.

Definition tokens : TokenHelper := {|
  isTokenValid := fun token _ _ => String.eqb token "token-ok"
|}.

(** One wrapped key unwraps, to the key [k1]; a signature is valid when it
    is the payload tagged with the key; two payloads decrypt. *)
Definition certs : CertHelper := {|
  SymmetricKey := string;
  decryptSymmetricKey := fun encodedKey _ =>
    if String.eqb encodedKey "wrapped-k1" then Normal "k1"
    else Throw (Error "error:02000079:rsa routines::oaep decoding error");
  verifySignature := fun encodedSignature signedPayload symmetricKey =>
    Normal (String.eqb encodedSignature (symmetricKey +:+ "/" +:+ signedPayload));
  decryptPayload := fun encryptedPayload _ =>
    if String.eqb encryptedPayload "cipher-of-empty-object" then Normal "{}"
    else if String.eqb encryptedPayload "cipher-of-junk" then Normal "junk"
    else Throw (Error "error:1C800064:Provider routines::bad decrypt")
|}.

(** A client is the user it acts for, and there is none for an empty
    account id; one event can be fetched. *)
Definition client_for (_ : unit) (userAccountId : string)
  : Completion string :=
  if String.eqb userAccountId ""
  then Throw (Error "Invalid MSAL state. User Account ID: missing")
  else Normal userAccountId.

Definition fetch (client path fields : string) : Completion Doc :=
  if String.eqb path "/Users/u1/Events/e1"
  then Normal (DocEvent "Standup" "e1")
  else Throw (Error "ErrorItemNotFound").

Definition graph : @GraphHelper runtime :=
  @Build_GraphHelper runtime unit string client_for fetch.

Definition env : ProcessEnv := {|
  OAUTH_CLIENT_ID := Some "app-id";
  OAUTH_TENANT_ID := Some "tenant-id";
  SUBSCRIPTION_CLIENT_STATE := Some "secret";
  PRIVATE_KEY_PATH := Some "key.pem"
|}.

Definition store : gmap string Subscription :=
  {[ "sub-1" := {| userAccountId := "u1" |};
     "sub-2" := {| userAccountId := "" |} ]}.

Definition event_e1 : ResourceData :=
  {| id := "e1"; odata_type := "#Microsoft.Graph.Event" |}.

Definition plain (state : option string) (sub change : string)
  : Notification := {|
  subscriptionId := sub;
  clientState := state;
  changeType := change;
  resource := "Users/u1/Events/e1";
  resourceData := Some event_e1;
  encryptedContent := None
|}.

Definition created : Notification := plain (Some "secret") "sub-1" "created".

Definition updated : Notification := plain (Some "secret") "sub-1" "updated".

Definition wrong_state : Notification := plain (Some "guess") "sub-1" "updated".

Definition unknown_subscription : Notification :=
  plain (Some "secret") "sub-9" "updated".

(** A valid notification for a subscription without an account id. *)
Definition no_account : Notification := plain (Some "secret") "sub-2" "updated".

(** A valid notification that carries no [resourceData]. *)
Definition without_resource_data : Notification := {|
  subscriptionId := "sub-1";
  clientState := Some "secret";
  changeType := "updated";
  resource := "Users/u1/Events/e1";
  resourceData := None;
  encryptedContent := None
|}.

Definition encrypted (content : EncryptedContent) : Notification := {|
  subscriptionId := "sub-1";
  clientState := Some "secret";
  changeType := "created";
  resource := "chats/c1/messages/m1";
  resourceData :=
    Some {| id := "m1"; odata_type := "#Microsoft.Graph.chatMessage" |};
  encryptedContent := Some content
|}.

Definition signed_message : Notification :=
  encrypted {| data := "cipher-of-empty-object";
               dataSignature := "k1/cipher-of-empty-object";
               dataKey := "wrapped-k1" |}.

Definition tampered_signature : Notification :=
  encrypted {| data := "cipher-of-empty-object";
               dataSignature := "k0/cipher-of-empty-object";
               dataKey := "wrapped-k1" |}.

Definition malformed_key : Notification :=
  encrypted {| data := "cipher-of-empty-object";
               dataSignature := "k1/cipher-of-empty-object";
               dataKey := "not-base64" |}.

Definition signed_junk : Notification :=
  encrypted {| data := "cipher-of-junk";
               dataSignature := "k1/cipher-of-junk";
               dataKey := "wrapped-k1" |}.

Definition batch (tokens : option (list string)) (l : list Notification)
  : @Request runtime graph :=
  @Build_Request runtime graph None
    {| validationTokens := tokens; value := l |} tt.

Definition emit_generic : @Effect runtime certs graph :=
  Emit "sub-1" "notification_received"
    (@Dispatch.Build_Data runtime "event" DocEmpty).

Definition accepted : @Effect runtime certs graph := ResStatusEnd 202.

End Fixture.

(** * Properties of the handler *)

Section Properties.

Context `{RT : Runtime} `{TH : TokenHelper} `{CH : CertHelper}
  `{GH : !GraphHelper}.

Variable env : ProcessEnv.

Implicit Types (store : gmap string Subscription) (l : list Effect).
Implicit Types (req : Request) (n : Notification).

(** ** Framing: the log is written, never read; the store is read, never
    written *)

Lemma framed_ret {A : Type} (a : A) : Framed (ret a).
Proof. intros store l. unfold run, ret. simpl. by rewrite app_nil_r. Qed.

Lemma framed_throw {A : Type} (e : Exn) : Framed (throw (A := A) e).
Proof. intros store l. unfold run, throw. simpl. by rewrite app_nil_r. Qed.

Lemma framed_complete {A : Type} (c : Completion A) : Framed (complete c).
Proof. intros store l. unfold run, complete. simpl. by rewrite app_nil_r. Qed.

Lemma framed_perform (e : Effect) : Framed (perform e).
Proof. intros store l. reflexivity. Qed.

Lemma framed_lookup_subscription (key : string) :
  Framed (lookup_subscription key).
Proof.
  intros store l. unfold run, lookup_subscription. simpl.
  by rewrite app_nil_r.
Qed.

(** What a sequence performs: the effects of the first part, then those of
    the continuation, unless the first part throws. *)
Lemma run_bind {A B : Type} (m : M A) (k : A -> M B) store :
  Framed m -> (forall a, Framed (k a)) ->
  run (bind m k) store
  = match run m store with
    | (Normal a, d) => (fst (run (k a) store), d ++ snd (run (k a) store))
    | (Throw e, d) => (Throw e, d)
    end.
Proof.
  intros Hm Hk. unfold run at 1. unfold bind. rewrite (Hm store []).
  destruct (run m store) as [[a | e] d]; simpl; [| done].
  by rewrite (Hk a store d).
Qed.

Lemma framed_bind {A B : Type} (m : M A) (k : A -> M B) :
  Framed m -> (forall a, Framed (k a)) -> Framed (bind m k).
Proof.
  intros Hm Hk store l. rewrite (run_bind m k store Hm Hk).
  unfold bind. rewrite (Hm store l).
  destruct (run m store) as [[a | e] d]; simpl; [| done].
  rewrite (Hk a store (l ++ d)). by rewrite app_assoc.
Qed.

Lemma run_try_catch {A : Type} (m : M A) (h : Exn -> M A) store :
  Framed m -> (forall e, Framed (h e)) ->
  run (try_catch m h) store
  = match run m store with
    | (Normal a, d) => (Normal a, d)
    | (Throw e, d) => (fst (run (h e) store), d ++ snd (run (h e) store))
    end.
Proof.
  intros Hm Hh. unfold run at 1. unfold try_catch. rewrite (Hm store []).
  destruct (run m store) as [[a | e] d]; simpl; [done |].
  by rewrite (Hh e store d).
Qed.

Lemma framed_try_catch {A : Type} (m : M A) (h : Exn -> M A) :
  Framed m -> (forall e, Framed (h e)) -> Framed (try_catch m h).
Proof.
  intros Hm Hh store l. rewrite (run_try_catch m h store Hm Hh).
  unfold try_catch. rewrite (Hm store l).
  destruct (run m store) as [[a | e] d]; simpl; [done |].
  rewrite (Hh e store (l ++ d)). by rewrite app_assoc.
Qed.

Lemma framed_for_each {A : Type} (f : A -> M unit) (xs : list A) :
  (forall x, Framed (f x)) -> Framed (for_each f xs).
Proof.
  intros Hf. induction xs as [| x xs IH]; simpl.
  - apply framed_ret.
  - apply framed_bind; auto.
Qed.

Lemma framed_promise_all_map {A B : Type} (f : A -> M B) (xs : list A) :
  (forall x, Framed (f x)) -> Framed (promise_all_map f xs).
Proof.
  intros Hf. induction xs as [| x xs IH]; simpl.
  - apply framed_ret.
  - apply framed_bind; [auto |]. intros y.
    apply framed_bind; [auto |]. intros ys. apply framed_ret.
Qed.

Ltac framed :=
  repeat first
    [ progress intros
    | apply framed_bind | apply framed_try_catch
    | apply framed_for_each | apply framed_promise_all_map
    | apply framed_ret | apply framed_throw | apply framed_complete
    | apply framed_perform | apply framed_lookup_subscription
    | match goal with |- Framed (match ?x with _ => _ end) => destruct x end
    | match goal with |- Framed (if ?x then _ else _) => destruct x end ].

Lemma framed_emitNotification room payload :
  Framed (emitNotification room payload).
Proof. unfold emitNotification. framed. Qed.

Lemma framed_processEncryptedNotification n :
  Framed (processEncryptedNotification env n).
Proof.
  unfold processEncryptedNotification, certHelper_decryptSymmetricKey,
    certHelper_verifySignature, certHelper_decryptPayload, emitNotification.
  framed.
Qed.

Lemma framed_processNotification n client user :
  Framed (processNotification n client user).
Proof.
  unfold processNotification, client_api_select_get, emitNotification,
    console_log, console_error.
  framed.
Qed.

Lemma framed_handleNotification req n : Framed (handleNotification env req n).
Proof.
  unfold handleNotification, dbHelper_getSubscription.
  framed; auto using framed_processEncryptedNotification,
    framed_processNotification.
Qed.

Lemma framed_areTokensValid req : Framed (areTokensValid env req).
Proof. unfold areTokensValid, tokenHelper_isTokenValid. framed. Qed.

Lemma framed_router_post req : Framed (router_post env req).
Proof.
  unfold router_post, console_log_body.
  framed; auto using framed_handleNotification, framed_areTokensValid.
Qed.

(** ** Language constructs *)

Lemma loose_eq_iff (a b : option string) : loose_eq a b = true <-> a = b.
Proof.
  destruct a as [x |], b as [y |]; simpl; try (split; congruence).
  rewrite String.eqb_eq. split; congruence.
Qed.

Lemma loose_eq_false (a b : option string) : a <> b -> loose_eq a b = false.
Proof.
  intros Hne. destruct (loose_eq a b) eqn:E; [| done].
  by apply loose_eq_iff in E.
Qed.

Lemma not_created (change : string) :
  change <> "created" -> String.eqb "created" change = false.
Proof. intros Hne. apply String.eqb_neq. congruence. Qed.

(** Unfolds the handler down to the state transformer, and evaluates. *)
Ltac exec :=
  unfold run, handleNotification, processNotification,
    processEncryptedNotification, emitNotification,
    dbHelper_getSubscription, certHelper_decryptSymmetricKey,
    certHelper_verifySignature, certHelper_decryptPayload,
    client_api_select_get, console_log, console_error,
    bind, try_catch, perform, complete, lookup_subscription, ret, throw;
  simpl.

(** The loop body: the two gates, then one of the two processors. *)
Lemma run_handleNotification req n store :
  run (handleNotification env req n) store
  = if loose_eq (clientState n) (SUBSCRIPTION_CLIENT_STATE env) then
      match store !! subscriptionId n with
      | Some subscription =>
          let m :=
            match encryptedContent n with
            | Some _ => processEncryptedNotification env n
            | None =>
                processNotification n (msalClient req)
                  (userAccountId subscription)
            end in
          (fst (run m store), GetSubscription (subscriptionId n) :: snd (run m store))
      | None => (Normal tt, [GetSubscription (subscriptionId n)])
      end
    else (Normal tt, []).
Proof.
  unfold handleNotification. destruct (loose_eq _ _); [| done].
  rewrite run_bind.
  - unfold dbHelper_getSubscription at 1. exec.
    destruct (store !! subscriptionId n) as [subscription |]; done.
  - unfold dbHelper_getSubscription. framed.
  - framed; auto using framed_processEncryptedNotification,
      framed_processNotification.
Qed.

(** X1. The endpoint validation request is answered with its token as
    plain text, and nothing of the body is looked at: no token is checked,
    no notification is processed and 202 is not sent. *)
Lemma endpoint_validation_echoes_token req token store :
  query_validationToken req = Some token -> token <> "" ->
  run (router_post env req) store
  = (Normal tt, [ResSet "Content-Type" "text/plain"; ResSend token]).
Proof.
  intros Hquery Htoken. unfold router_post. rewrite Hquery. simpl.
  apply String.eqb_neq in Htoken. by rewrite Htoken.
Qed.

(** ** Encrypted notifications *)

(** C1. When the signature over [encryptedContent.data] does not verify
    against the recovered symmetric key, processing the notification calls
    key unwrap and signature verification and nothing else: the payload is
    never decrypted and no event is dispatched, in
    [processEncryptedNotification] and so in the loop body that calls it. *)
Theorem signature_failure_never_decrypts n content key store :
  encryptedContent n = Some content ->
  decryptSymmetricKey (dataKey content) (PRIVATE_KEY_PATH env) = Normal key ->
  verifySignature (dataSignature content) (data content) key <> Normal true ->
  snd (run (processEncryptedNotification env n) store)
  = [DecryptSymmetricKey (dataKey content) (PRIVATE_KEY_PATH env);
     VerifySignature (dataSignature content) (data content) key] /\
  forall req,
    decryptions (snd (run (handleNotification env req n) store)) = [] /\
    dispatches (snd (run (handleNotification env req n) store)) = [].
Proof.
  intros Hcontent Hkey Hsig.
  assert (Hrun : snd (run (processEncryptedNotification env n) store)
    = [DecryptSymmetricKey (dataKey content) (PRIVATE_KEY_PATH env);
       VerifySignature (dataSignature content) (data content) key]).
  { exec. rewrite Hcontent. simpl. rewrite Hkey. simpl.
    destruct (verifySignature _ _ key) as [[|] | e]; done. }
  split; [exact Hrun |]. intros req.
  rewrite run_handleNotification.
  destruct (loose_eq _ _); [| done].
  destruct (store !! subscriptionId n) as [subscription |]; [| done].
  rewrite Hcontent. simpl. by rewrite Hrun.
Qed.

(** The loop body on an authenticated encrypted notification whose
    signature verifies: one chatMessage event with the parsed plaintext
    when the payload decrypts to a text that parses, and no event
    otherwise. *)
Lemma handleNotification_verified
  req n subscription content key store :
  clientState n = SUBSCRIPTION_CLIENT_STATE env ->
  store !! subscriptionId n = Some subscription ->
  encryptedContent n = Some content ->
  decryptSymmetricKey (dataKey content) (PRIVATE_KEY_PATH env) = Normal key ->
  verifySignature (dataSignature content) (data content) key = Normal true ->
  (forall plaintext document,
     decryptPayload (data content) key = Normal plaintext ->
     JSON_parse plaintext = Normal document ->
     run (handleNotification env req n) store
     = (Normal tt,
        [GetSubscription (subscriptionId n);
         DecryptSymmetricKey (dataKey content) (PRIVATE_KEY_PATH env);
         VerifySignature (dataSignature content) (data content) key;
         DecryptPayload (data content) key;
         Emit (subscriptionId n) "notification_received"
           {| Dispatch.type := "chatMessage";
              Dispatch.resource := document |}])) /\
  ((forall plaintext document,
      decryptPayload (data content) key = Normal plaintext ->
      JSON_parse plaintext <> Normal document) ->
   dispatches (snd (run (handleNotification env req n) store)) = []).
Proof.
  intros Hstate Hsub Hcontent Hkey Hsig.
  apply loose_eq_iff in Hstate.
  rewrite run_handleNotification, Hstate, Hsub, Hcontent.
  split.
  - intros plaintext document Hpayload Hparse. exec.
    rewrite Hcontent. simpl. rewrite Hkey. simpl. rewrite Hsig. simpl.
    rewrite Hpayload. simpl. by rewrite Hparse.
  - intros Hfail. exec.
    rewrite Hcontent. simpl. rewrite Hkey. simpl. rewrite Hsig. simpl.
    destruct (decryptPayload (data content) key) as [plaintext | e] eqn:Hpayload;
      simpl; [| done].
    destruct (JSON_parse plaintext) as [document | e] eqn:Hparse; simpl;
      [| done].
    by destruct (Hfail plaintext document).
Qed.

(** ** Plain notifications *)

(** The loop body on an authenticated plain notification with change
    type created, once the client is built: the fetch, then one event with
    the fetched projection, or the two console entries when the fetch
    fails. *)
Lemma handleNotification_created
  req n subscription details client store :
  clientState n = SUBSCRIPTION_CLIENT_STATE env ->
  store !! subscriptionId n = Some subscription ->
  encryptedContent n = None ->
  resourceData n = Some details ->
  getGraphClientForUser (msalClient req) (userAccountId subscription)
  = Normal client ->
  changeType n = "created" ->
  (forall event,
     graph_get client ("/" +:+ resource n) "subject,id" = Normal event ->
     run (handleNotification env req n) store
     = (Normal tt,
        [GetSubscription (subscriptionId n);
         GraphGet client ("/" +:+ resource n) "subject,id";
         Emit (subscriptionId n) "notification_received"
           {| Dispatch.type := odata_type details;
              Dispatch.resource := event |}])) /\
  (forall err,
     graph_get client ("/" +:+ resource n) "subject,id" = Throw err ->
     run (handleNotification env req n) store
     = (Normal tt,
        [GetSubscription (subscriptionId n);
         GraphGet client ("/" +:+ resource n) "subject,id";
         ConsoleLog ("Error getting event with " +:+ id details +:+ ":");
         ConsoleError err])).
Proof.
  intros Hstate Hsub Hplain Hdetails Hclient Hchange.
  apply loose_eq_iff in Hstate.
  split; intros result Hget;
    rewrite run_handleNotification, Hstate, Hsub, Hplain; exec;
    rewrite Hdetails, Hclient, Hchange; simpl; by rewrite Hget.
Qed.

(** The loop body on an authenticated plain notification with another
    change type, once the client is built: one generic event, no fetch. *)
Lemma handleNotification_other_change
  req n subscription details client store :
  clientState n = SUBSCRIPTION_CLIENT_STATE env ->
  store !! subscriptionId n = Some subscription ->
  encryptedContent n = None ->
  resourceData n = Some details ->
  getGraphClientForUser (msalClient req) (userAccountId subscription)
  = Normal client ->
  changeType n <> "created" ->
  run (handleNotification env req n) store
  = (Normal tt,
     [GetSubscription (subscriptionId n);
      Emit (subscriptionId n) "notification_received"
        {| Dispatch.type := "event"; Dispatch.resource := empty_object |}]).
Proof.
  intros Hstate Hsub Hplain Hdetails Hclient Hchange.
  apply loose_eq_iff in Hstate. apply not_created in Hchange.
  rewrite run_handleNotification, Hstate, Hsub, Hplain.
  unfold processNotification. rewrite Hdetails, Hchange. exec.
  by rewrite Hclient.
Qed.

(** ** Batches *)

Lemma dispatches_app l1 l2 :
  dispatches (l1 ++ l2) = dispatches l1 ++ dispatches l2.
Proof. apply omap_app. Qed.

Lemma responses_app l1 l2 : responses (l1 ++ l2) = responses l1 ++ responses l2.
Proof. apply List.filter_app. Qed.

Lemma reduce_andb (x : bool) (rest : list bool) :
  reduce andb (x :: rest) = Normal (forallb (fun b => b) (x :: rest)).
Proof.
  simpl. f_equal. revert x.
  induction rest as [| y rest IH]; intros x; simpl.
  - by rewrite andb_true_r.
  - by rewrite IH, andb_assoc.
Qed.

(** Every token of the batch is checked, in order, and none of the checks
    throws. *)
Lemma run_isTokenValid_all (tokens : list string) store :
  run (promise_all_map
         (fun token =>
            tokenHelper_isTokenValid token (OAUTH_CLIENT_ID env)
              (OAUTH_TENANT_ID env)) tokens) store
  = (Normal
       (map (fun token =>
               isTokenValid token (OAUTH_CLIENT_ID env) (OAUTH_TENANT_ID env))
          tokens),
     map (fun token =>
            IsTokenValid token (OAUTH_CLIENT_ID env) (OAUTH_TENANT_ID env))
       tokens).
Proof.
  induction tokens as [| token tokens IH]; [done |]. simpl.
  rewrite run_bind; [| unfold tokenHelper_isTokenValid; framed ..].
  change (run (tokenHelper_isTokenValid token _ _) store)
    with (Normal (isTokenValid token (OAUTH_CLIENT_ID env)
                    (OAUTH_TENANT_ID env)),
          [IsTokenValid token (OAUTH_CLIENT_ID env) (OAUTH_TENANT_ID env)]).
  cbv iota.
  rewrite run_bind; [| unfold tokenHelper_isTokenValid; framed ..].
  rewrite IH. simpl. by rewrite app_nil_r.
Qed.

Lemma run_areTokensValid req store :
  run (areTokensValid env req) store
  = match validationTokens (body req) with
    | Some tokens =>
        (reduce andb
           (map (fun token =>
                   isTokenValid token (OAUTH_CLIENT_ID env)
                     (OAUTH_TENANT_ID env)) tokens),
         map (fun token =>
                IsTokenValid token (OAUTH_CLIENT_ID env) (OAUTH_TENANT_ID env))
           tokens)
    | None => (Normal true, [])
    end.
Proof.
  unfold areTokensValid. destruct (validationTokens (body req)); [| done].
  rewrite run_bind; [| unfold tokenHelper_isTokenValid; framed ..].
  rewrite run_isTokenValid_all. simpl. by rewrite app_nil_r.
Qed.

(** The handler on a request that is not the endpoint validation: the
    body is logged, the tokens are checked, the notifications are
    processed when the tokens are valid, and 202 is sent if nothing
    threw. *)
Lemma run_router_post req store :
  truthy (query_validationToken req) = false ->
  run (router_post env req) store
  = match run (areTokensValid env req) store with
    | (Normal true, d) =>
        match run (for_each (handleNotification env req) (value (body req)))
                store with
        | (Normal _, d') =>
            (Normal tt, ConsoleLogBody (body req) :: d ++ d' ++ [ResStatusEnd 202])
        | (Throw e, d') => (Throw e, ConsoleLogBody (body req) :: d ++ d')
        end
    | (Normal false, d) =>
        (Normal tt, ConsoleLogBody (body req) :: d ++ [ResStatusEnd 202])
    | (Throw e, d) => (Throw e, ConsoleLogBody (body req) :: d)
    end.
Proof.
  intros Hquery. unfold router_post. rewrite Hquery.
  assert (Hloop : Framed (for_each (handleNotification env req)
                            (value (body req)))).
  { apply framed_for_each, framed_handleNotification. }
  rewrite run_bind;
    [| unfold console_log_body; framed
     | framed; auto using framed_areTokensValid, framed_handleNotification ].
  rewrite run_bind;
    [| apply framed_areTokensValid
     | framed; auto using framed_handleNotification ].
  unfold console_log_body at 1. simpl.
  destruct (run (areTokensValid env req) store) as [[[|] | e] d]; simpl;
    [| done | done].
  rewrite run_bind; [| done | framed].
  destruct (run (for_each _ _) store) as [[[] | e] d']; done.
Qed.

Lemma run_for_each_cons {A : Type} (f : A -> M unit) x xs store :
  (forall y, Framed (f y)) ->
  run (for_each f (x :: xs)) store
  = match run (f x) store with
    | (Normal _, d) =>
        (fst (run (for_each f xs) store), d ++ snd (run (for_each f xs) store))
    | (Throw e, d) => (Throw e, d)
    end.
Proof.
  intros Hf. simpl. rewrite run_bind; [done | done |].
  intros _. by apply framed_for_each.
Qed.

(** An element whose iteration completes without a dispatch and without a
    response can be dropped from the loop: completion, dispatches and
    responses stay the same. *)
Lemma for_each_skip {A : Type} (f : A -> M unit) x dx store before after :
  (forall y, Framed (f y)) ->
  run (f x) store = (Normal tt, dx) ->
  dispatches dx = [] -> responses dx = [] ->
  fst (run (for_each f (before ++ x :: after)) store)
  = fst (run (for_each f (before ++ after)) store) /\
  dispatches (snd (run (for_each f (before ++ x :: after)) store))
  = dispatches (snd (run (for_each f (before ++ after)) store)) /\
  responses (snd (run (for_each f (before ++ x :: after)) store))
  = responses (snd (run (for_each f (before ++ after)) store)).
Proof.
  intros Hf Hx Hdisp Hresp. induction before as [| y before IH].
  - simpl app. rewrite run_for_each_cons, Hx by done. simpl.
    by rewrite dispatches_app, responses_app, Hdisp, Hresp.
  - rewrite <- !app_comm_cons, !run_for_each_cons by done.
    destruct (run (f y) store) as [[[] | e] d]; [| done]. simpl.
    rewrite !dispatches_app, !responses_app.
    destruct IH as (-> & -> & ->). done.
Qed.

(** An exception thrown by the key unwrap of an authenticated encrypted
    notification is caught nowhere: it ends the loop, and the notifications
    after it are not looked at. *)
Lemma key_unwrap_throw_leaves_the_loop
  req n subscription content e after store :
  clientState n = SUBSCRIPTION_CLIENT_STATE env ->
  store !! subscriptionId n = Some subscription ->
  encryptedContent n = Some content ->
  decryptSymmetricKey (dataKey content) (PRIVATE_KEY_PATH env) = Throw e ->
  run (for_each (handleNotification env req) (n :: after)) store
  = (Throw e,
     [GetSubscription (subscriptionId n);
      DecryptSymmetricKey (dataKey content) (PRIVATE_KEY_PATH env)]).
Proof.
  intros Hstate Hsub Hcontent Hkey. apply loose_eq_iff in Hstate.
  rewrite run_for_each_cons by apply framed_handleNotification.
  rewrite run_handleNotification, Hstate, Hsub, Hcontent. exec.
  rewrite Hcontent. simpl. by rewrite Hkey.
Qed.

Lemma token_checks_are_silent (tokens : list string) :
  dispatches
    (map (fun token =>
            IsTokenValid token (OAUTH_CLIENT_ID env) (OAUTH_TENANT_ID env))
       tokens) = [] /\
  responses
    (map (fun token =>
            IsTokenValid token (OAUTH_CLIENT_ID env) (OAUTH_TENANT_ID env))
       tokens) = [].
Proof. induction tokens as [| token tokens IH]; [done |]. exact IH. Qed.

Lemma forallb_results {A : Type} (f : A -> bool) (xs : list A) :
  forallb (fun b => b) (map f xs) = forallb f xs.
Proof. induction xs as [| x xs IH]; simpl; [done |]. by rewrite IH. Qed.

(** A batch that completes is acknowledged: the last thing the handler
    does is to send 202. *)
Lemma completed_batch_is_acknowledged req store :
  truthy (query_validationToken req) = false ->
  fst (run (router_post env req) store) = Normal tt ->
  exists d, snd (run (router_post env req) store) = d ++ [ResStatusEnd 202].
Proof.
  intros Hquery. rewrite run_router_post by done.
  destruct (run (areTokensValid env req) store) as [[[|] | e] d]; simpl.
  - destruct (run (for_each _ _) store) as [[[] | e] d']; simpl; [| done].
    intros _. exists (ConsoleLogBody (body req) :: d ++ d').
    by rewrite <- app_comm_cons, <- app_assoc.
  - intros _. by exists (ConsoleLogBody (body req) :: d).
  - done.
Qed.

(** C2. When one of the batch's validation tokens fails verification, the
    validity of the batch is the conjunction of the results of all its
    tokens, which is false; the handler checks every token, processes no
    notification, dispatches nothing and sends 202. *)
Theorem invalid_token_suppresses_batch req tokens token store :
  truthy (query_validationToken req) = false ->
  validationTokens (body req) = Some tokens ->
  In token tokens ->
  isTokenValid token (OAUTH_CLIENT_ID env) (OAUTH_TENANT_ID env) = false ->
  run (areTokensValid env req) store
  = (Normal
       (forallb
          (fun t => isTokenValid t (OAUTH_CLIENT_ID env) (OAUTH_TENANT_ID env))
          tokens),
     map (fun t => IsTokenValid t (OAUTH_CLIENT_ID env) (OAUTH_TENANT_ID env))
       tokens) /\
  run (router_post env req) store
  = (Normal tt,
     ConsoleLogBody (body req)
     :: map (fun t =>
               IsTokenValid t (OAUTH_CLIENT_ID env) (OAUTH_TENANT_ID env))
          tokens
     ++ [ResStatusEnd 202]) /\
  dispatches (snd (run (router_post env req) store)) = [] /\
  responses (snd (run (router_post env req) store)) = [ResStatusEnd 202].
Proof.
  intros Hquery Htokens Hin Hinvalid.
  assert (Hall : forallb
    (fun t => isTokenValid t (OAUTH_CLIENT_ID env) (OAUTH_TENANT_ID env))
    tokens = false).
  { apply not_true_is_false. intros Hall.
    rewrite forallb_forall in Hall. specialize (Hall token Hin). congruence. }
  assert (Hvalid : run (areTokensValid env req) store
  = (Normal
       (forallb
          (fun t => isTokenValid t (OAUTH_CLIENT_ID env) (OAUTH_TENANT_ID env))
          tokens),
     map (fun t => IsTokenValid t (OAUTH_CLIENT_ID env) (OAUTH_TENANT_ID env))
       tokens)).
  { rewrite run_areTokensValid, Htokens.
    destruct tokens as [| first rest]; [by destruct Hin |].
    pose proof (reduce_andb
      (isTokenValid first (OAUTH_CLIENT_ID env) (OAUTH_TENANT_ID env))
      (map (fun t =>
              isTokenValid t (OAUTH_CLIENT_ID env) (OAUTH_TENANT_ID env))
         rest)) as Hreduce.
    rewrite <- (forallb_results _ (first :: rest)).
    simpl map in *. by rewrite Hreduce. }
  split; [exact Hvalid |].
  rewrite run_router_post, Hvalid, Hall by done.
  destruct (token_checks_are_silent tokens) as [Hdisp Hresp].
  repeat split; simpl.
  - by rewrite dispatches_app, Hdisp.
  - by rewrite responses_app, Hresp.
Qed.

(** C10. When [validationTokens] is present and empty, the reduction of
    the empty list of results throws a TypeError: the handler has logged
    the body and does nothing else. No notification is looked at, nothing
    is dispatched and 202 is not sent. *)
Theorem empty_validation_tokens_throw req store :
  truthy (query_validationToken req) = false ->
  validationTokens (body req) = Some [] ->
  run (router_post env req) store
  = (Throw (TypeError "Reduce of empty array with no initial value"),
     [ConsoleLogBody (body req)]).
Proof.
  intros Hquery Htokens.
  by rewrite run_router_post, run_areTokensValid, Htokens.
Qed.

(** C3. A notification whose client state differs from the configured
    secret, or whose subscription id is not in the store, is skipped: its
    iteration completes normally and does nothing but the store lookup, and
    a batch with it completes, dispatches and responds as the batch
    without it. *)
Theorem unauthenticated_notification_is_skipped req n store :
  clientState n <> SUBSCRIPTION_CLIENT_STATE env \/
  store !! subscriptionId n = None ->
  run (handleNotification env req n) store
  = (Normal tt,
     if loose_eq (clientState n) (SUBSCRIPTION_CLIENT_STATE env)
     then [GetSubscription (subscriptionId n)] else []) /\
  forall before after,
    truthy (query_validationToken req) = false ->
    fst (run (router_post env (with_value req (before ++ n :: after))) store)
    = fst (run (router_post env (with_value req (before ++ after))) store) /\
    dispatches
      (snd (run (router_post env (with_value req (before ++ n :: after)))
              store))
    = dispatches
        (snd (run (router_post env (with_value req (before ++ after))) store)) /\
    responses
      (snd (run (router_post env (with_value req (before ++ n :: after)))
              store))
    = responses
        (snd (run (router_post env (with_value req (before ++ after))) store)).
Proof.
  intros Hn.
  assert (Hstep : run (handleNotification env req n) store
  = (Normal tt,
     if loose_eq (clientState n) (SUBSCRIPTION_CLIENT_STATE env)
     then [GetSubscription (subscriptionId n)] else [])).
  { rewrite run_handleNotification.
    destruct Hn as [Hstate | Hsub].
    - by rewrite (loose_eq_false _ _ Hstate).
    - rewrite Hsub. by destruct (loose_eq _ _). }
  split; [exact Hstep |]. intros before after Hquery.
  rewrite !run_router_post by done.
  change (areTokensValid env (with_value req (before ++ n :: after)))
    with (areTokensValid env req).
  change (areTokensValid env (with_value req (before ++ after)))
    with (areTokensValid env req).
  change (handleNotification env (with_value req (before ++ n :: after)))
    with (handleNotification env req).
  change (handleNotification env (with_value req (before ++ after)))
    with (handleNotification env req).
  simpl value.
  destruct (run (areTokensValid env req) store) as [[[|] | e] d]; [| done ..].
  destruct (for_each_skip (handleNotification env req) n _ store before after
              (framed_handleNotification req) Hstep) as (Hfst & Hdisp & Hresp).
  { by destruct (loose_eq _ _). }
  { by destruct (loose_eq _ _). }
  destruct (run (for_each _ (before ++ n :: after)) store) as [r1 d1].
  destruct (run (for_each _ (before ++ after)) store) as [r2 d2].
  simpl in Hfst, Hdisp, Hresp. subst r2.
  destruct r1 as [[] | e]; simpl;
    rewrite !dispatches_app, !responses_app, Hdisp, Hresp; done.
Qed.

(** C9. The handler leaves the subscription store as it found it, and
    handling the same request again on the resulting state completes in
    the same way and performs the same effects, so the same dispatches. *)
Theorem reprocessing_is_idempotent req (st : State) :
  exists r d,
    router_post env req st
    = (r, mkState (subscriptions st) (log st ++ d)) /\
    router_post env req (mkState (subscriptions st) (log st ++ d))
    = (r, mkState (subscriptions st) ((log st ++ d) ++ d)).
Proof.
  destruct st as [store l]. simpl.
  exists (fst (run (router_post env req) store)),
    (snd (run (router_post env req) store)).
  split; apply framed_router_post.
Qed.

(** ** The paths through the two processors *)

(** Every way [processEncryptedNotification] can go: each helper call
    either throws, which ends the function, or lets it go on. *)
Lemma run_processEncryptedNotification n store :
  run (processEncryptedNotification env n) store
  = match encryptedContent n with
    | None =>
        (Throw
           (TypeError "Cannot read properties of undefined (reading 'dataKey')"),
         [])
    | Some content =>
        let unwrap :=
          DecryptSymmetricKey (dataKey content) (PRIVATE_KEY_PATH env) in
        match decryptSymmetricKey (dataKey content) (PRIVATE_KEY_PATH env) with
        | Throw e => (Throw e, [unwrap])
        | Normal key =>
            let verify :=
              VerifySignature (dataSignature content) (data content) key in
            match verifySignature (dataSignature content) (data content) key
            with
            | Throw e => (Throw e, [unwrap; verify])
            | Normal false => (Normal tt, [unwrap; verify])
            | Normal true =>
                let decrypt := DecryptPayload (data content) key in
                match decryptPayload (data content) key with
                | Throw e => (Throw e, [unwrap; verify; decrypt])
                | Normal plaintext =>
                    match JSON_parse plaintext with
                    | Throw e => (Throw e, [unwrap; verify; decrypt])
                    | Normal document =>
                        (Normal tt,
                         [unwrap; verify; decrypt;
                          Emit (subscriptionId n) "notification_received"
                            {| Dispatch.type := "chatMessage";
                               Dispatch.resource := document |}])
                    end
                end
            end
        end
    end.
Proof.
  exec. destruct (encryptedContent n) as [content |]; [| done]. simpl.
  destruct (decryptSymmetricKey _ _) as [key | e]; [| done]. simpl.
  destruct (verifySignature _ _ key) as [[|] | e]; [| done | done]. simpl.
  destruct (decryptPayload _ key) as [plaintext | e]; [| done]. simpl.
  by destruct (JSON_parse plaintext).
Qed.

(** Every way [processNotification] can go: it throws before the [try]
    when [resourceData] is missing or the client cannot be built, and
    completes otherwise. *)
Lemma run_processNotification n client user store :
  run (processNotification n client user) store
  = match resourceData n with
    | None =>
        (Throw
           (TypeError "Cannot read properties of undefined (reading 'id')"),
         [])
    | Some details =>
        match getGraphClientForUser client user with
        | Throw e => (Throw e, [])
        | Normal graph_client =>
            if String.eqb "created" (changeType n) then
              let get :=
                GraphGet graph_client ("/" +:+ resource n) "subject,id" in
              match graph_get graph_client ("/" +:+ resource n) "subject,id"
              with
              | Normal event =>
                  (Normal tt,
                   [get;
                    Emit (subscriptionId n) "notification_received"
                      {| Dispatch.type := odata_type details;
                         Dispatch.resource := event |}])
              | Throw err =>
                  (Normal tt,
                   [get;
                    ConsoleLog
                      ("Error getting event with " +:+ id details +:+ ":");
                    ConsoleError err])
              end
            else
              (Normal tt,
               [Emit (subscriptionId n) "notification_received"
                  {| Dispatch.type := "event";
                     Dispatch.resource := empty_object |}])
        end
    end.
Proof.
  unfold processNotification.
  destruct (resourceData n) as [details |]; [| done].
  destruct (String.eqb "created" (changeType n)); exec;
    destruct (getGraphClientForUser client user) as [graph_client |];
    simpl; try done.
  by destruct (graph_get _ _ _).
Qed.

(** ** Properties of every effect of a loop *)

Lemma for_each_log_Forall {A : Type} (P : Effect -> Prop) (f : A -> M unit)
  (xs : list A) store :
  (forall x, Framed (f x)) ->
  (forall x, In x xs -> Forall P (snd (run (f x) store))) ->
  Forall P (snd (run (for_each f xs) store)).
Proof.
  intros Hf. induction xs as [| x xs IH]; intros HP; [by constructor |].
  rewrite run_for_each_cons by done.
  pose proof (HP x (or_introl eq_refl)) as Hx.
  destruct (run (f x) store) as [[[] | e] d]; simpl in *; [| done].
  apply Forall_app. split; [done |]. apply IH. intros y Hy. apply HP. by right.
Qed.

(** A property of effects that holds of the bookkeeping of the handler
    (the log of the body, the token checks, the writes to the response)
    holds of a whole run if it holds of what each notification does. *)
Lemma router_log_Forall (P : Effect -> Prop) req store :
  P (ConsoleLogBody (body req)) ->
  (forall token appId tenantId, P (IsTokenValid token appId tenantId)) ->
  (forall field val, P (ResSet field val)) ->
  (forall text, P (ResSend text)) ->
  (forall status, P (ResStatusEnd status)) ->
  (forall n, In n (value (body req)) ->
             Forall P (snd (run (handleNotification env req n) store))) ->
  Forall P (snd (run (router_post env req) store)).
Proof.
  intros Hbody Htoken Hset Hsend Hstatus Hloop.
  destruct (truthy (query_validationToken req)) eqn:Hquery.
  - unfold router_post. rewrite Hquery. exec. by repeat constructor.
  - rewrite run_router_post by done.
    assert (Htokens : Forall P (snd (run (areTokensValid env req) store))).
    { rewrite run_areTokensValid.
      destruct (validationTokens (body req)) as [tokens |]; simpl;
        [| by constructor].
      induction tokens as [| token tokens IH]; simpl; by constructor. }
    pose proof (for_each_log_Forall P (handleNotification env req)
                  (value (body req)) store
                  (framed_handleNotification req) Hloop) as Hnotifications.
    destruct (run (areTokensValid env req) store) as [[[|] | e] d];
      simpl in Htokens.
    + destruct (run (for_each _ _) store) as [[[] | e] d'];
        simpl in Hnotifications; constructor; try done;
        repeat (apply Forall_app; split); try done.
      by repeat constructor.
    + constructor; [done |]. apply Forall_app. split; [done |].
      by repeat constructor.
    + by constructor.
Qed.

(** ** What a run never does *)

(** Splits the loop body into its paths: the gates, then every outcome of
    every helper call. The equations of the path taken stay in the
    context. *)
Ltac notification_paths n store :=
  rewrite run_handleNotification;
  destruct (loose_eq (clientState n) (SUBSCRIPTION_CLIENT_STATE env))
    eqn:Hstate;
    [apply loose_eq_iff in Hstate |];
  [ destruct (store !! subscriptionId n) as [subscription |] eqn:Hsub;
    [ destruct (encryptedContent n) as [content |] eqn:Hcontent; cbv zeta;
    [ rewrite run_processEncryptedNotification, Hcontent; cbv zeta;
      destruct (decryptSymmetricKey (dataKey content) (PRIVATE_KEY_PATH env))
        as [key | ?] eqn:Hkey;
        [ destruct (verifySignature (dataSignature content) (data content) key)
            as [[|] | ?] eqn:Hsig;
            [ destruct (decryptPayload (data content) key)
                as [plaintext | ?] eqn:Hpayload;
                [ destruct (JSON_parse plaintext) as [document | ?] eqn:Hparse
                | ]
            | | ]
        | ]
    | rewrite run_processNotification;
      destruct (resourceData n) as [details |] eqn:Hdetails;
        [ destruct (getGraphClientForUser _ _) as [client | ?] eqn:Hclient;
            [ destruct (String.eqb "created" (changeType n)) eqn:Hchange;
              cbv zeta;
                [ apply String.eqb_eq in Hchange;
                  destruct (graph_get _ _ _) as [event | ?] eqn:Hget
                | ]
            | ]
        | ] ]
    | ]
  | ];
  cbn [fst snd].

Lemma authenticated_intro n subscription store :
  clientState n = SUBSCRIPTION_CLIENT_STATE env ->
  store !! subscriptionId n = Some subscription ->
  authenticated env store n.
Proof. intros Hstate Hsub. split; [done |]. by exists subscription. Qed.

Lemma handleNotification_authorised req n ns store :
  In n ns ->
  Forall (authorised_dispatch env store ns)
    (snd (run (handleNotification env req n) store)).
Proof.
  intros Hin. notification_paths n store;
    repeat (constructor; simpl; try done);
    exists n; eauto using authenticated_intro.
Qed.

Lemma handleNotification_justified_crypto req n ns store :
  In n ns ->
  Forall (justified_crypto env store ns)
    (snd (run (handleNotification env req n) store)).
Proof.
  intros Hin. notification_paths n store;
    repeat (constructor; simpl; try done);
    exists n, content; eauto 10 using authenticated_intro.
Qed.

Lemma handleNotification_justified_fetch req n store :
  In n (value (body req)) ->
  Forall (justified_fetch env store req)
    (snd (run (handleNotification env req n) store)).
Proof.
  intros Hin. notification_paths n store;
    repeat (constructor; simpl; try done);
    exists n, subscription; eauto 10.
Qed.

(** X5. Whatever the request and the store, every emit of a run is the
    event [notification_received], sent to the room named by the
    subscription id of a notification of the batch whose client state is
    the configured one and whose subscription is in the store. *)
Theorem every_dispatch_is_authorised req store :
  Forall (authorised_dispatch env store (value (body req)))
    (snd (run (router_post env req) store)).
Proof.
  apply router_log_Forall; try done.
  intros n Hin. by apply handleNotification_authorised.
Qed.

(** X7. Whatever the request and the store, the private key is only used
    on the [dataKey] of an authenticated notification of the batch, a
    signature is only checked with the key unwrapped from that
    notification, and a payload is only decrypted with that key after
    [verifySignature] returned true for it. *)
Theorem every_crypto_call_is_justified req store :
  Forall (justified_crypto env store (value (body req)))
    (snd (run (router_post env req) store)).
Proof.
  apply router_log_Forall; try done.
  intros n Hin. by apply handleNotification_justified_crypto.
Qed.

(** X10. Whatever the request and the store, Graph is only asked for
    the fields subject and id, at the path named by an authenticated plain
    notification of the batch with change type created, with the client of
    the user who owns its subscription. *)
Theorem every_fetch_is_justified req store :
  Forall (justified_fetch env store req)
    (snd (run (router_post env req) store)).
Proof.
  apply router_log_Forall; try done.
  intros n Hin. by apply handleNotification_justified_fetch.
Qed.

(** ** The loop as a whole *)

Lemma run_for_each_app {A : Type} (f : A -> M unit) xs ys store :
  (forall x, Framed (f x)) ->
  run (for_each f (xs ++ ys)) store
  = match run (for_each f xs) store with
    | (Normal _, d) =>
        (fst (run (for_each f ys) store), d ++ snd (run (for_each f ys) store))
    | (Throw e, d) => (Throw e, d)
    end.
Proof.
  intros Hf. induction xs as [| x xs IH]; simpl app.
  - change (run (for_each f []) store) with (Normal tt, @nil Effect).
    by destruct (run (for_each f ys) store).
  - rewrite !run_for_each_cons, IH by done.
    destruct (run (f x) store) as [[[] | e] d]; [| done].
    destruct (run (for_each f xs) store) as [[[] | e] d']; simpl; [| done].
    by rewrite app_assoc.
Qed.

(** A loop completes when each of its iterations does. *)
Lemma for_each_completes {A : Type} (f : A -> M unit) xs store :
  (forall x, Framed (f x)) ->
  Forall (fun x => fst (run (f x) store) = Normal tt) xs ->
  fst (run (for_each f xs) store) = Normal tt.
Proof.
  intros Hf Hxs. induction Hxs as [| x xs Hx _ IH]; [done |].
  rewrite run_for_each_cons by done.
  by destruct (run (f x) store) as [[[] | e] d].
Qed.

(** The log of a loop that completes is the logs of its iterations, one
    after the other. *)
Lemma for_each_completed_log {A : Type} (f : A -> M unit) xs store :
  (forall x, Framed (f x)) ->
  fst (run (for_each f xs) store) = Normal tt ->
  snd (run (for_each f xs) store)
  = concat (map (fun x => snd (run (f x) store)) xs).
Proof.
  intros Hf. induction xs as [| x xs IH]; [done |].
  rewrite run_for_each_cons by done. simpl concat.
  destruct (run (f x) store) as [[[] | e] d]; simpl; [| done].
  intros Hrest. by rewrite IH.
Qed.

Lemma for_each_no_response {A : Type} (f : A -> M unit) xs store :
  (forall x, Framed (f x)) ->
  (forall x, responses (snd (run (f x) store)) = []) ->
  responses (snd (run (for_each f xs) store)) = [].
Proof.
  intros Hf Hquiet. induction xs as [| x xs IH]; [done |].
  rewrite run_for_each_cons by done. specialize (Hquiet x).
  destruct (run (f x) store) as [[[] | e] d]; simpl in *; [| done].
  by rewrite responses_app, Hquiet, IH.
Qed.


Lemma handleNotification_no_response req n store :
  responses (snd (run (handleNotification env req n) store)) = [].
Proof. notification_paths n store; done. Qed.


(** The loop body completes for such a notification: a failed fetch is
    caught. *)
Lemma handleNotification_completes req n store :
  harmless env req store n ->
  fst (run (handleNotification env req n) store) = Normal tt.
Proof.
  intros Hn. notification_paths n store; try done;
    (destruct Hn as [Hgates | (Hplain & [? Hsome] & Hbuilt)];
     [ destruct Hgates; eauto using authenticated_intro | ]);
    try congruence;
    destruct (Hbuilt _ Hsub) as [? Hnormal]; congruence.
Qed.

(** Nothing is dispatched by an encrypted notification whose processing
    throws: the emit is the last step. *)
Lemma thrown_decryption_dispatches_nothing n e store :
  fst (run (processEncryptedNotification env n) store) = Throw e ->
  dispatches (snd (run (processEncryptedNotification env n) store)) = [] /\
  responses (snd (run (processEncryptedNotification env n) store)) = [].
Proof.
  rewrite run_processEncryptedNotification.
  destruct (encryptedContent n) as [content |]; [| done]. cbv zeta.
  destruct (decryptSymmetricKey _ _) as [key |]; [| done].
  destruct (verifySignature _ _ key) as [[|] |]; [| done | done].
  destruct (decryptPayload _ key) as [plaintext |]; [| done].
  by destruct (JSON_parse plaintext).
Qed.

(** The token check of a batch completes unless the list of tokens is
    present and empty. *)
Lemma areTokensValid_completes req store :
  validationTokens (body req) <> Some [] ->
  exists valid, fst (run (areTokensValid env req) store) = Normal valid.
Proof.
  intros Htokens. rewrite run_areTokensValid.
  destruct (validationTokens (body req)) as [[| token tokens] |];
    [done | | by exists true].
  rewrite map_cons, reduce_andb. eauto.
Qed.

(** What a batch request writes to the response, by its completion. *)
Lemma router_responses req store :
  truthy (query_validationToken req) = false ->
  responses (snd (run (router_post env req) store))
  = match fst (run (router_post env req) store) with
    | Normal _ => [ResStatusEnd 202]
    | Throw _ => []
    end.
Proof.
  intros Hquery. rewrite run_router_post by done.
  rewrite run_areTokensValid.
  pose proof (for_each_no_response (handleNotification env req)
                (value (body req)) store (framed_handleNotification req)
                (fun n => handleNotification_no_response req n store))
    as Hloop.
  destruct (token_checks_are_silent
              (default [] (validationTokens (body req)))) as [_ Htokens].
  destruct (validationTokens (body req)) as [tokens |]; simpl in *.
  - destruct (reduce andb _) as [[|] | e]; simpl.
    + destruct (run (for_each _ _) store) as [[[] | e] d']; simpl in *;
        rewrite !responses_app, Htokens, Hloop; done.
    + by rewrite responses_app, Htokens.
    + done.
  - destruct (run (for_each _ _) store) as [[[] | e] d']; simpl in *;
      by rewrite ?responses_app, Hloop.
Qed.

(** X2. A token is sent back exactly when it is the [validationToken]
    query parameter of the request and is not the empty string: an empty
    parameter is falsy and the request is handled as a batch, and no batch
    ever echoes anything. *)
Theorem token_is_echoed_iff req text store :
  In (ResSend text) (snd (run (router_post env req) store)) <->
  query_validationToken req = Some text /\ text <> "".
Proof.
  destruct (truthy (query_validationToken req)) eqn:Hquery.
  - destruct (query_validationToken req) as [token |] eqn:Hparam; [| done].
    assert (Htoken : token <> "").
    { simpl in Hquery. apply negb_true_iff in Hquery.
      by apply String.eqb_neq. }
    assert (Hrun : snd (run (router_post env req) store)
                   = [ResSet "Content-Type" "text/plain"; ResSend token]).
    { unfold router_post. rewrite Hparam. simpl truthy.
      apply String.eqb_neq in Htoken. by rewrite Htoken. }
    rewrite Hrun. split.
    + intros [Hin | [Hin | []]]; [discriminate |]. by inversion Hin; subst.
    + intros [Hsame _]. inversion Hsame. right. by left.
  - split.
    + intros Hin.
      assert (Hresponse : In (ResSend text)
                (responses (snd (run (router_post env req) store)))).
      { apply List.filter_In. by split. }
      rewrite router_responses in Hresponse by done.
      destruct (fst (run (router_post env req) store));
        simpl in Hresponse; [| done].
      by destruct Hresponse as [Hresponse | []].
    + intros [Hparam Htext]. rewrite Hparam in Hquery. simpl in Hquery.
      apply String.eqb_neq in Htext. by rewrite Htext in Hquery.
Qed.

(** X3. On a batch request the handler writes to the response exactly
    when it completes: then 202 is all it writes and the last thing it
    does; when it throws, the response is left untouched. *)
Theorem response_is_202_exactly_when_completed req store :
  truthy (query_validationToken req) = false ->
  (fst (run (router_post env req) store) = Normal tt ->
   responses (snd (run (router_post env req) store)) = [ResStatusEnd 202] /\
   last (snd (run (router_post env req) store)) = Some (ResStatusEnd 202)) /\
  (forall e,
     fst (run (router_post env req) store) = Throw e ->
     responses (snd (run (router_post env req) store)) = []).
Proof.
  intros Hquery. split.
  - intros Hdone. split.
    + by rewrite router_responses, Hdone.
    + destruct (completed_batch_is_acknowledged req store Hquery Hdone)
        as [d ->].
      apply last_snoc.
  - intros e Hthrown. by rewrite router_responses, Hthrown.
Qed.

(** X4. A batch completes and is answered with 202 whenever its list of
    validation tokens is not present and empty, and each of its
    notifications either fails a gate or is plain, carries [resourceData]
    and gets its client built: then the only call that can fail is the
    fetch, which is caught. *)
Theorem plain_batch_always_completes req store :
  truthy (query_validationToken req) = false ->
  validationTokens (body req) <> Some [] ->
  Forall (harmless env req store) (value (body req)) ->
  fst (run (router_post env req) store) = Normal tt /\
  responses (snd (run (router_post env req) store)) = [ResStatusEnd 202].
Proof.
  intros Hquery Htokens Hplain.
  assert (Hdone : fst (run (router_post env req) store) = Normal tt).
  { rewrite run_router_post by done.
    destruct (areTokensValid_completes req store Htokens) as [valid Hvalid].
    destruct (run (areTokensValid env req) store) as [r d].
    simpl in Hvalid. subst r. destruct valid; [| done].
    pose proof (for_each_completes (handleNotification env req)
                  (value (body req)) store (framed_handleNotification req))
      as Hloop.
    destruct (run (for_each _ _) store) as [[[] | e] d']; [done |].
    simpl in Hloop. discriminate Hloop.
    eapply Forall_impl; [exact Hplain |].
    intros n Hn. by apply handleNotification_completes. }
  split; [exact Hdone |]. by rewrite router_responses, Hdone.
Qed.


(** X8. The notifications of a batch are handled one by one, in the
    order of the batch and each as it would be handled alone: the log of a
    run that passes the token check and completes is the log of the body,
    the token checks, the log of each notification in turn, then 202. *)
Theorem completed_batch_log req store :
  truthy (query_validationToken req) = false ->
  fst (run (areTokensValid env req) store) = Normal true ->
  fst (run (router_post env req) store) = Normal tt ->
  snd (run (router_post env req) store)
  = ConsoleLogBody (body req)
    :: snd (run (areTokensValid env req) store)
    ++ concat (map (fun n => snd (run (handleNotification env req n) store))
                 (value (body req)))
    ++ [ResStatusEnd 202].
Proof.
  intros Hquery Hvalid. rewrite run_router_post by done.
  destruct (run (areTokensValid env req) store) as [r d].
  simpl in Hvalid. subst r. simpl snd.
  pose proof (for_each_completed_log (handleNotification env req)
                (value (body req)) store (framed_handleNotification req))
    as Hloop.
  destruct (run (for_each _ _) store) as [[[] | e] d']; simpl in *;
    [| done].
  intros _. by rewrite (Hloop eq_refl).
Qed.

(** X9. Validation tokens that all verify change nothing but the token
    checks: the batch completes, dispatches and responds as the same
    batch without [validationTokens]. *)
Theorem valid_tokens_are_transparent req tokens store :
  truthy (query_validationToken req) = false ->
  validationTokens (body req) = Some tokens ->
  tokens <> [] ->
  (forall token,
     In token tokens ->
     isTokenValid token (OAUTH_CLIENT_ID env) (OAUTH_TENANT_ID env) = true) ->
  fst (run (router_post env req) store)
  = fst (run (router_post env (without_tokens req)) store) /\
  dispatches (snd (run (router_post env req) store))
  = dispatches (snd (run (router_post env (without_tokens req)) store)) /\
  responses (snd (run (router_post env req) store))
  = responses (snd (run (router_post env (without_tokens req)) store)).
Proof.
  intros Hquery Htokens Hsome Hvalid.
  rewrite !run_router_post, !run_areTokensValid by done.
  change (handleNotification env (without_tokens req))
    with (handleNotification env req).
  simpl validationTokens. simpl value. cbv iota. rewrite Htokens.
  destruct tokens as [| first rest]; [done |].
  assert (Hall : reduce andb
    (map (fun token =>
            isTokenValid token (OAUTH_CLIENT_ID env) (OAUTH_TENANT_ID env))
       (first :: rest)) = Normal true).
  { rewrite map_cons, reduce_andb. f_equal.
    apply forallb_forall. intros valid Hin.
    destruct Hin as [<- | Hin]; [apply Hvalid; by left |].
    apply in_map_iff in Hin. destruct Hin as (token & <- & Hin).
    apply Hvalid. by right. }
  rewrite Hall.
  destruct (token_checks_are_silent (first :: rest)) as [Hdisp Hresp].
  destruct (run (for_each _ _) store) as [[[] | e] d']; simpl;
    rewrite !dispatches_app, !responses_app; simpl in Hdisp, Hresp;
    rewrite ?Hdisp, ?Hresp; done.
Qed.

(** X11. An exception raised while an authenticated encrypted
    notification is processed (by the key unwrap, the signature check,
    the payload decryption or [JSON.parse]) is caught nowhere. The handler
    throws it: nothing is dispatched for that notification or for those
    after it, and the response is never written. *)
Theorem decryption_exception_leaves_the_handler
  req before n after subscription content e store :
  truthy (query_validationToken req) = false ->
  fst (run (areTokensValid env req) store) = Normal true ->
  value (body req) = before ++ n :: after ->
  fst (run (for_each (handleNotification env req) before) store) = Normal tt ->
  clientState n = SUBSCRIPTION_CLIENT_STATE env ->
  store !! subscriptionId n = Some subscription ->
  encryptedContent n = Some content ->
  fst (run (processEncryptedNotification env n) store) = Throw e ->
  fst (run (router_post env req) store) = Throw e /\
  dispatches (snd (run (router_post env req) store))
  = dispatches
      (snd (run (for_each (handleNotification env req) before) store)) /\
  responses (snd (run (router_post env req) store)) = [].
Proof.
  intros Hquery Hvalid Hvalue Hbefore Hstate Hsub Hcontent Hthrown.
  apply loose_eq_iff in Hstate.
  assert (Hfst : fst (run (router_post env req) store) = Throw e).
  { rewrite run_router_post, Hvalue by done.
    destruct (run (areTokensValid env req) store) as [r d].
    simpl in Hvalid. subst r.
    rewrite run_for_each_app, run_for_each_cons
      by apply framed_handleNotification.
    rewrite run_handleNotification, Hstate, Hsub, Hcontent. cbv zeta.
    destruct (run (for_each _ before) store) as [[[] | e'] d']; [| done].
    simpl. by rewrite Hthrown. }
  split; [exact Hfst |]. split; [| by rewrite router_responses, Hfst].
  destruct (thrown_decryption_dispatches_nothing n e store Hthrown)
    as [Hquiet _].
  rewrite run_router_post, run_areTokensValid, Hvalue by done.
  rewrite run_areTokensValid in Hvalid.
  destruct (token_checks_are_silent
              (default [] (validationTokens (body req)))) as [Htokens _].
  rewrite run_for_each_app, run_for_each_cons
    by apply framed_handleNotification.
  rewrite run_handleNotification, Hstate, Hsub, Hcontent. cbv zeta.
  destruct (run (for_each _ before) store) as [[[] | e'] d']; [| done].
  rewrite Hthrown. simpl fst. simpl snd.
  destruct (validationTokens (body req)) as [tokens |]; simpl in *.
  - destruct (reduce andb _) as [[|] | ?]; [| done | done]. simpl.
    rewrite !dispatches_app, Htokens.
    change (dispatches (GetSubscription (subscriptionId n) :: ?l))
      with (dispatches l).
    by rewrite Hquiet, app_nil_r.
  - rewrite !dispatches_app.
    change (dispatches (GetSubscription (subscriptionId n) :: ?l))
      with (dispatches l).
    by rewrite Hquiet, app_nil_r.
Qed.

(** ** A notification that the loop comes to *)

(** The run of the handler around one notification of the batch, when
    the token check passes and the notifications before it complete: what
    was done before, what the loop body does for it, and the rest of the
    batch unless the loop body throws. *)
Lemma run_router_post_reaching req before n after store :
  truthy (query_validationToken req) = false ->
  fst (run (areTokensValid env req) store) = Normal true ->
  value (body req) = before ++ n :: after ->
  fst (run (for_each (handleNotification env req) before) store) = Normal tt ->
  run (router_post env req) store
  = match run (handleNotification env req n) store with
    | (Normal _, d) =>
        (match fst (run (for_each (handleNotification env req) after) store)
         with
         | Normal _ => Normal tt
         | Throw e => Throw e
         end,
         log_before env req before store ++ d
         ++ rest_of_batch env req after store)
    | (Throw e, d) => (Throw e, log_before env req before store ++ d)
    end.
Proof.
  intros Hquery Hvalid Hvalue Hbefore.
  rewrite run_router_post, Hvalue by done.
  unfold log_before, rest_of_batch.
  destruct (run (areTokensValid env req) store) as [r d].
  simpl in Hvalid. subst r.
  rewrite run_for_each_app, run_for_each_cons
    by apply framed_handleNotification.
  destruct (run (for_each _ before) store) as [[[] | e] db]; [| done].
  destruct (run (handleNotification env req n) store) as [[[] | e] dn];
    simpl; [| by rewrite <- !app_assoc].
  destruct (run (for_each _ after) store) as [[[] | e] da]; simpl;
    by rewrite <- !app_assoc.
Qed.

(** C5, amended. In a batch that passes the token check, when the
    notifications before it complete, an authenticated plain notification
    with its [resourceData] and change type created, whose client is
    built, makes the handler fetch the fields subject and id of the
    resource at the path it names. When the fetch returns, the handler
    dispatches exactly one event for it, with the resource's
    [@odata.type] as type and the fetched projection as resource. When the
    fetch fails, the error is written to the console, nothing is
    dispatched for it and the handler goes on with the rest of the
    batch. *)
Theorem created_notification_fetches_and_dispatches
  req before n after subscription details client store :
  truthy (query_validationToken req) = false ->
  fst (run (areTokensValid env req) store) = Normal true ->
  value (body req) = before ++ n :: after ->
  fst (run (for_each (handleNotification env req) before) store) = Normal tt ->
  clientState n = SUBSCRIPTION_CLIENT_STATE env ->
  store !! subscriptionId n = Some subscription ->
  encryptedContent n = None ->
  resourceData n = Some details ->
  getGraphClientForUser (msalClient req) (userAccountId subscription)
  = Normal client ->
  changeType n = "created" ->
  (forall event,
     graph_get client ("/" +:+ resource n) "subject,id" = Normal event ->
     snd (run (router_post env req) store)
     = log_before env req before store
       ++ [GetSubscription (subscriptionId n);
           GraphGet client ("/" +:+ resource n) "subject,id";
           Emit (subscriptionId n) "notification_received"
             {| Dispatch.type := odata_type details;
                Dispatch.resource := event |}]
       ++ rest_of_batch env req after store) /\
  (forall err,
     graph_get client ("/" +:+ resource n) "subject,id" = Throw err ->
     snd (run (router_post env req) store)
     = log_before env req before store
       ++ [GetSubscription (subscriptionId n);
           GraphGet client ("/" +:+ resource n) "subject,id";
           ConsoleLog ("Error getting event with " +:+ id details +:+ ":");
           ConsoleError err]
       ++ rest_of_batch env req after store).
Proof.
  intros Hquery Hvalid Hvalue Hbefore Hstate Hsub Hplain Hdetails Hclient
    Hchange.
  destruct (handleNotification_created req n subscription details client
              store Hstate Hsub Hplain Hdetails Hclient Hchange)
    as [Hfetched Hfailed].
  rewrite (run_router_post_reaching req before n after store) by done.
  split; intros result Hget.
  - by rewrite (Hfetched result Hget).
  - by rewrite (Hfailed result Hget).
Qed.

(** C7, amended. In a batch that passes the token check, when the
    notifications before it complete, an authenticated plain notification
    with its [resourceData] and a change type other than created, whose
    client is built, makes the handler dispatch exactly one event for it,
    with the generic type tag event and the empty object as resource, and
    fetch nothing for it. *)
Theorem other_change_dispatches_empty_event
  req before n after subscription details client store :
  truthy (query_validationToken req) = false ->
  fst (run (areTokensValid env req) store) = Normal true ->
  value (body req) = before ++ n :: after ->
  fst (run (for_each (handleNotification env req) before) store) = Normal tt ->
  clientState n = SUBSCRIPTION_CLIENT_STATE env ->
  store !! subscriptionId n = Some subscription ->
  encryptedContent n = None ->
  resourceData n = Some details ->
  getGraphClientForUser (msalClient req) (userAccountId subscription)
  = Normal client ->
  changeType n <> "created" ->
  snd (run (router_post env req) store)
  = log_before env req before store
    ++ [GetSubscription (subscriptionId n);
        Emit (subscriptionId n) "notification_received"
          {| Dispatch.type := "event"; Dispatch.resource := empty_object |}]
    ++ rest_of_batch env req after store.
Proof.
  intros Hquery Hvalid Hvalue Hbefore Hstate Hsub Hplain Hdetails Hclient
    Hchange.
  rewrite (run_router_post_reaching req before n after store) by done.
  by rewrite (handleNotification_other_change req n subscription details
                client store Hstate Hsub Hplain Hdetails Hclient Hchange).
Qed.

Lemma dispatches_log_before req before store :
  dispatches (log_before env req before store)
  = dispatches (snd (run (for_each (handleNotification env req) before) store)).
Proof.
  unfold log_before. rewrite run_areTokensValid.
  destruct (token_checks_are_silent
              (default [] (validationTokens (body req)))) as [Htokens _].
  change (dispatches (ConsoleLogBody (body req) :: ?l)) with (dispatches l).
  rewrite dispatches_app.
  destruct (validationTokens (body req)) as [tokens |]; simpl in *;
    [by rewrite Htokens | done].
Qed.

(** C6, amended. In a batch that passes the token check, when the
    notifications before it complete, an authenticated encrypted
    notification whose signature verifies, whose payload then decrypts and
    whose plaintext parses makes the handler dispatch exactly one event
    for it: to the room of its subscription id, with type chatMessage and
    with the parsed plaintext as resource. When the payload does not
    decrypt to a text that parses, the handler dispatches nothing for it:
    the dispatches of the run are those of the notifications before it. *)
Theorem verified_notification_dispatches_plaintext
  req before n after subscription content key store :
  truthy (query_validationToken req) = false ->
  fst (run (areTokensValid env req) store) = Normal true ->
  value (body req) = before ++ n :: after ->
  fst (run (for_each (handleNotification env req) before) store) = Normal tt ->
  clientState n = SUBSCRIPTION_CLIENT_STATE env ->
  store !! subscriptionId n = Some subscription ->
  encryptedContent n = Some content ->
  decryptSymmetricKey (dataKey content) (PRIVATE_KEY_PATH env) = Normal key ->
  verifySignature (dataSignature content) (data content) key = Normal true ->
  (forall plaintext document,
     decryptPayload (data content) key = Normal plaintext ->
     JSON_parse plaintext = Normal document ->
     snd (run (router_post env req) store)
     = log_before env req before store
       ++ [GetSubscription (subscriptionId n);
           DecryptSymmetricKey (dataKey content) (PRIVATE_KEY_PATH env);
           VerifySignature (dataSignature content) (data content) key;
           DecryptPayload (data content) key;
           Emit (subscriptionId n) "notification_received"
             {| Dispatch.type := "chatMessage";
                Dispatch.resource := document |}]
       ++ rest_of_batch env req after store) /\
  ((forall plaintext document,
      decryptPayload (data content) key = Normal plaintext ->
      JSON_parse plaintext <> Normal document) ->
   dispatches (snd (run (router_post env req) store))
   = dispatches
       (snd (run (for_each (handleNotification env req) before) store))).
Proof.
  intros Hquery Hvalid Hvalue Hbefore Hstate Hsub Hcontent Hkey Hsig.
  rewrite (run_router_post_reaching req before n after store) by done.
  split.
  - intros plaintext document Hpayload Hparse.
    destruct (handleNotification_verified req n subscription content key
                store Hstate Hsub Hcontent Hkey Hsig) as [Hdispatched _].
    by rewrite (Hdispatched plaintext document Hpayload Hparse).
  - intros Hfail. apply loose_eq_iff in Hstate.
    rewrite run_handleNotification, Hstate, Hsub, Hcontent. cbv zeta.
    rewrite run_processEncryptedNotification, Hcontent. cbv zeta.
    rewrite Hkey, Hsig.
    destruct (decryptPayload (data content) key) as [plaintext | e]
      eqn:Hpayload; cbn [fst snd].
    + destruct (JSON_parse plaintext) as [document | e] eqn:Hparse;
        [by destruct (Hfail plaintext document) |].
      cbn [fst snd].
      by rewrite dispatches_app, dispatches_log_before, app_nil_r.
    + by rewrite dispatches_app, dispatches_log_before, app_nil_r.
Qed.

End Properties.

(** * The handler on sample batches *)

Section Samples.

#[local] Existing Instances Fixture.runtime Fixture.tokens Fixture.certs
  Fixture.graph.

Import Fixture.

(** C4. A failed decryption is not always confined to its notification.
    In a batch of an encrypted notification followed by a valid plain one,
    a signature that does not verify skips the first and the second is
    still dispatched; but a key that does not unwrap, or a payload that
    decrypts to text that is not JSON, throws out of the loop: the second
    notification is never looked at, nothing is dispatched and 202 is not
    sent. *)
Theorem decryption_failure_aborts_batch :
  run (router_post env (batch None [tampered_signature; updated])) store
  = (Normal tt,
     [ConsoleLogBody (body (batch None [tampered_signature; updated]));
      GetSubscription "sub-1";
      DecryptSymmetricKey "wrapped-k1" (Some "key.pem");
      VerifySignature "k0/cipher-of-empty-object" "cipher-of-empty-object"
        ("k1" : SymmetricKey);
      GetSubscription "sub-1";
      emit_generic;
      accepted]) /\
  run (router_post env (batch None [malformed_key; updated])) store
  = (Throw (Error "error:02000079:rsa routines::oaep decoding error"),
     [ConsoleLogBody (body (batch None [malformed_key; updated]));
      GetSubscription "sub-1";
      DecryptSymmetricKey "not-base64" (Some "key.pem")]) /\
  run (router_post env (batch None [signed_junk; updated])) store
  = (Throw (SyntaxError "Unexpected token j in JSON at position 0"),
     [ConsoleLogBody (body (batch None [signed_junk; updated]));
      GetSubscription "sub-1";
      DecryptSymmetricKey "wrapped-k1" (Some "key.pem");
      VerifySignature "k1/cipher-of-junk" "cipher-of-junk"
        ("k1" : SymmetricKey);
      DecryptPayload "cipher-of-junk" ("k1" : SymmetricKey)]).
Proof. repeat split; vm_compute; reflexivity. Qed.

(** C8. Not every batch is answered with 202. The batch of one valid
    notification is; the same batch with an empty list of validation
    tokens throws before the response is written. *)
Theorem empty_token_list_is_not_acknowledged :
  run (router_post env (batch None [updated])) store
  = (Normal tt,
     [ConsoleLogBody (body (batch None [updated]));
      GetSubscription "sub-1";
      emit_generic;
      accepted]) /\
  run (router_post env (batch (Some []) [updated])) store
  = (Throw (TypeError "Reduce of empty array with no initial value"),
     [ConsoleLogBody (body (batch (Some []) [updated]))]) /\
  responses (snd (run (router_post env (batch (Some []) [updated])) store))
  = [].
Proof. repeat split; vm_compute; reflexivity. Qed.

(** The tampered signature of the samples: two helper calls, no
    decryption, no dispatch. *)
Lemma signature_failure_witness :
  snd (run (processEncryptedNotification env tampered_signature) store)
  = [DecryptSymmetricKey "wrapped-k1" (Some "key.pem");
     VerifySignature "k0/cipher-of-empty-object" "cipher-of-empty-object"
       ("k1" : SymmetricKey)] /\
  decryptions
    (snd (run (handleNotification env (batch None []) tampered_signature)
            store)) = [].
Proof.
  destruct (signature_failure_never_decrypts (CH := certs) env
              tampered_signature
              {| data := "cipher-of-empty-object";
                 dataSignature := "k0/cipher-of-empty-object";
                 dataKey := "wrapped-k1" |}
              "k1" store) as [Hlog Hloop].
  - reflexivity.
  - reflexivity.
  - vm_compute. discriminate.
  - split; [exact Hlog |]. exact (proj1 (Hloop (batch None []))).
Defined.

(** C6 as first stated fails on a message that is signed with the right
    key and whose payload decrypts to text that is not JSON: the
    notification is authenticated and its signature verifies, and nothing
    is dispatched, by the loop body and so by the handler. It fails as
    well on the signed message of the samples, whose payload parses: the
    handler dispatches nothing for it in a batch with a token that does
    not verify, nor after a notification whose key does not unwrap. *)
Lemma verified_signature_without_dispatch :
  clientState signed_junk = SUBSCRIPTION_CLIENT_STATE env /\
  store !! subscriptionId signed_junk = Some {| userAccountId := "u1" |} /\
  encryptedContent signed_junk
  = Some {| data := "cipher-of-junk";
            dataSignature := "k1/cipher-of-junk";
            dataKey := "wrapped-k1" |} /\
  decryptSymmetricKey "wrapped-k1" (PRIVATE_KEY_PATH env) = Normal "k1" /\
  verifySignature "k1/cipher-of-junk" "cipher-of-junk" "k1" = Normal true /\
  dispatches
    (snd (run (handleNotification env (batch None []) signed_junk) store))
  = [] /\
  dispatches (snd (run (router_post env (batch None [signed_junk])) store))
  = [] /\
  (clientState signed_message = SUBSCRIPTION_CLIENT_STATE env /\
   store !! subscriptionId signed_message = Some {| userAccountId := "u1" |} /\
   encryptedContent signed_message
   = Some {| data := "cipher-of-empty-object";
             dataSignature := "k1/cipher-of-empty-object";
             dataKey := "wrapped-k1" |} /\
   verifySignature "k1/cipher-of-empty-object" "cipher-of-empty-object" "k1"
   = Normal true /\
   decryptPayload "cipher-of-empty-object" "k1" = Normal "{}" /\
   JSON_parse "{}" = Normal DocEmpty /\
   dispatches
     (snd (run (router_post env
                  (batch (Some ["token-expired"]) [signed_message])) store))
   = [] /\
   dispatches
     (snd (run (router_post env (batch None [malformed_key; signed_message]))
             store)) = []).
Proof. repeat split; vm_compute; reflexivity. Qed.

(** The signed message of the samples, after a valid plain notification
    and before one with the wrong client state. *)
Lemma verified_notification_witness :
  snd (run (router_post env (batch None [updated; signed_message; wrong_state]))
         store)
  = log_before env (batch None [updated; signed_message; wrong_state])
      [updated] store
    ++ [GetSubscription "sub-1";
        DecryptSymmetricKey "wrapped-k1" (Some "key.pem");
        VerifySignature "k1/cipher-of-empty-object" "cipher-of-empty-object"
          ("k1" : SymmetricKey);
        DecryptPayload "cipher-of-empty-object" ("k1" : SymmetricKey);
        Emit "sub-1" "notification_received"
          (@Dispatch.Build_Data runtime "chatMessage" DocEmpty)]
    ++ rest_of_batch env (batch None [updated; signed_message; wrong_state])
         [wrong_state] store.
Proof.
  assert (Hvalid : fst (run (areTokensValid env
                               (batch None
                                  [updated; signed_message; wrong_state]))
                          store) = Normal true)
    by reflexivity.
  assert (Hbefore : fst (run (for_each
                                (handleNotification env
                                   (batch None
                                      [updated; signed_message; wrong_state]))
                                [updated]) store) = Normal tt)
    by (vm_compute; reflexivity).
  assert (Hsub : store !! subscriptionId signed_message
                 = Some {| userAccountId := "u1" |})
    by (vm_compute; reflexivity).
  pose proof (verified_notification_dispatches_plaintext (RT := runtime)
                (CH := certs) env
                (batch None [updated; signed_message; wrong_state])
                [updated] signed_message [wrong_state]
                {| userAccountId := "u1" |}
                {| data := "cipher-of-empty-object";
                   dataSignature := "k1/cipher-of-empty-object";
                   dataKey := "wrapped-k1" |}
                "k1" store eq_refl Hvalid eq_refl Hbefore eq_refl Hsub
                eq_refl eq_refl eq_refl)
    as [Hdispatch _].
  exact (Hdispatch "{}" DocEmpty eq_refl eq_refl).
Defined.

(** C5 as first stated fails on the created event of the samples, which
    is authenticated and plain: in a batch with a token that does not
    verify, and after a notification whose key does not unwrap, the
    handler fetches and dispatches nothing; for a subscription without an
    account id the client is not built and nothing is fetched either. *)
Lemma created_notification_without_fetch :
  (clientState created = SUBSCRIPTION_CLIENT_STATE env /\
   store !! subscriptionId created = Some {| userAccountId := "u1" |} /\
   encryptedContent created = None /\
   changeType created = "created") /\
  (fetches
     (snd (run (router_post env (batch (Some ["token-expired"]) [created]))
             store)) = [] /\
   dispatches
     (snd (run (router_post env (batch (Some ["token-expired"]) [created]))
             store)) = []) /\
  (fetches
     (snd (run (router_post env (batch None [malformed_key; created])) store))
   = [] /\
   dispatches
     (snd (run (router_post env (batch None [malformed_key; created])) store))
   = []) /\
  (clientState (plain (Some "secret") "sub-2" "created")
   = SUBSCRIPTION_CLIENT_STATE env /\
   store !! "sub-2" = Some {| userAccountId := "" |} /\
   fetches
     (snd (run (router_post env
                  (batch None [plain (Some "secret") "sub-2" "created"]))
             store)) = []).
Proof. repeat split; vm_compute; reflexivity. Qed.

(** Scenario A, after a notification for an unknown subscription and
    before an update: the created event of the samples is fetched and
    dispatched with its type. *)
Lemma created_notification_witness :
  snd (run (router_post env
              (batch None [unknown_subscription; created; updated])) store)
  = log_before env (batch None [unknown_subscription; created; updated])
      [unknown_subscription] store
    ++ [GetSubscription "sub-1";
        GraphGet ("u1" : GraphClient) "/Users/u1/Events/e1" "subject,id";
        Emit "sub-1" "notification_received"
          (@Dispatch.Build_Data runtime "#Microsoft.Graph.Event"
             (DocEvent "Standup" "e1"))]
    ++ rest_of_batch env (batch None [unknown_subscription; created; updated])
         [updated] store.
Proof.
  assert (Hvalid : fst (run (areTokensValid env
                               (batch None
                                  [unknown_subscription; created; updated]))
                          store) = Normal true)
    by reflexivity.
  assert (Hbefore : fst (run (for_each
                                (handleNotification env
                                   (batch None
                                      [unknown_subscription; created; updated]))
                                [unknown_subscription]) store) = Normal tt)
    by (vm_compute; reflexivity).
  assert (Hsub : store !! subscriptionId created
                 = Some {| userAccountId := "u1" |})
    by (vm_compute; reflexivity).
  pose proof (created_notification_fetches_and_dispatches (RT := runtime)
                (GH := graph) env
                (batch None [unknown_subscription; created; updated])
                [unknown_subscription] created [updated]
                {| userAccountId := "u1" |} event_e1 "u1" store
                eq_refl Hvalid eq_refl Hbefore eq_refl Hsub eq_refl eq_refl
                eq_refl eq_refl)
    as [Hfetched _].
  exact (Hfetched (DocEvent "Standup" "e1") eq_refl).
Defined.

(** C7 as first stated fails on the update of the samples, which is
    authenticated and plain: nothing is dispatched for it in a batch with
    a token that does not verify, nor after a notification whose key does
    not unwrap. Nothing is dispatched either for a valid update that
    carries no [resourceData], or whose subscription has no account id. *)
Lemma other_change_without_dispatch :
  (clientState updated = SUBSCRIPTION_CLIENT_STATE env /\
   store !! subscriptionId updated = Some {| userAccountId := "u1" |} /\
   encryptedContent updated = None /\
   changeType updated = "updated") /\
  dispatches
    (snd (run (router_post env (batch (Some ["token-expired"]) [updated]))
            store)) = [] /\
  dispatches
    (snd (run (router_post env (batch None [malformed_key; updated])) store))
  = [] /\
  (clientState without_resource_data = SUBSCRIPTION_CLIENT_STATE env /\
   store !! subscriptionId without_resource_data
   = Some {| userAccountId := "u1" |} /\
   encryptedContent without_resource_data = None /\
   changeType without_resource_data = "updated" /\
   run (router_post env (batch None [without_resource_data])) store
   = (Throw (TypeError "Cannot read properties of undefined (reading 'id')"),
      [ConsoleLogBody (body (batch None [without_resource_data]));
       GetSubscription "sub-1"])) /\
  (clientState no_account = SUBSCRIPTION_CLIENT_STATE env /\
   store !! subscriptionId no_account = Some {| userAccountId := "" |} /\
   encryptedContent no_account = None /\
   changeType no_account = "updated" /\
   dispatches (snd (run (router_post env (batch None [no_account])) store))
   = []).
Proof. repeat split; vm_compute; reflexivity. Qed.

(** Scenario B, between two other notifications: the update of the
    samples is dispatched without a fetch. *)
Lemma other_change_witness :
  snd (run (router_post env (batch None [created; updated; wrong_state]))
         store)
  = log_before env (batch None [created; updated; wrong_state]) [created]
      store
    ++ [GetSubscription "sub-1"; emit_generic]
    ++ rest_of_batch env (batch None [created; updated; wrong_state])
         [wrong_state] store.
Proof.
  assert (Hvalid : fst (run (areTokensValid env
                               (batch None [created; updated; wrong_state]))
                          store) = Normal true)
    by reflexivity.
  assert (Hbefore : fst (run (for_each
                                (handleNotification env
                                   (batch None
                                      [created; updated; wrong_state]))
                                [created]) store) = Normal tt)
    by (vm_compute; reflexivity).
  assert (Hsub : store !! subscriptionId updated
                 = Some {| userAccountId := "u1" |})
    by (vm_compute; reflexivity).
  assert (Hchange : changeType updated <> "created") by discriminate.
  exact (other_change_dispatches_empty_event (RT := runtime) (GH := graph)
           env (batch None [created; updated; wrong_state]) [created]
           updated [wrong_state] {| userAccountId := "u1" |} event_e1 "u1"
           store eq_refl Hvalid eq_refl Hbefore eq_refl Hsub eq_refl eq_refl
           eq_refl Hchange).
Defined.

(** A batch with one good and one bad token. *)
Lemma invalid_token_witness :
  run (router_post env (batch (Some ["token-ok"; "token-expired"]) [updated]))
    store
  = (Normal tt,
     [ConsoleLogBody
        (body (batch (Some ["token-ok"; "token-expired"]) [updated]));
      IsTokenValid "token-ok" (Some "app-id") (Some "tenant-id");
      IsTokenValid "token-expired" (Some "app-id") (Some "tenant-id");
      accepted]).
Proof.
  apply (invalid_token_suppresses_batch env
           (batch (Some ["token-ok"; "token-expired"]) [updated])
           ["token-ok"; "token-expired"] "token-expired" store);
    try reflexivity.
  right. left. reflexivity.
Defined.

(** A batch with an empty list of tokens. *)
Lemma empty_validation_tokens_witness :
  run (router_post env (batch (Some []) [created; updated])) store
  = (Throw (TypeError "Reduce of empty array with no initial value"),
     [ConsoleLogBody (body (batch (Some []) [created; updated]))]).
Proof.
  apply (empty_validation_tokens_throw env
           (batch (Some []) [created; updated]) store);
    reflexivity.
Defined.

(** Scenario D: a notification with the wrong client state, and one for
    an unknown subscription, next to a valid one. *)
Lemma unauthenticated_notification_witness :
  dispatches
    (snd (run (router_post env (batch None [wrong_state; updated])) store))
  = dispatches (snd (run (router_post env (batch None [updated])) store)) /\
  dispatches
    (snd (run (router_post env (batch None [updated; unknown_subscription]))
            store))
  = dispatches (snd (run (router_post env (batch None [updated])) store)).
Proof.
  assert (Hstate : clientState wrong_state <> SUBSCRIPTION_CLIENT_STATE env)
    by discriminate.
  assert (Hmiss : store !! subscriptionId unknown_subscription = None)
    by (vm_compute; reflexivity).
  pose proof (unauthenticated_notification_is_skipped env (batch None [])
                wrong_state store (or_introl Hstate)) as [_ Hwrong].
  pose proof (Hwrong [] [updated] eq_refl) as (_ & Hfirst & _).
  pose proof (unauthenticated_notification_is_skipped env (batch None [])
                unknown_subscription store (or_intror Hmiss)) as [_ Hunknown].
  pose proof (Hunknown [updated] [] eq_refl) as (_ & Hlast & _).
  split; [exact Hfirst | exact Hlast].
Defined.

(** An endpoint validation request, with a body that would throw as a
    batch. *)
Lemma endpoint_validation_witness :
  run (router_post env
         (with_query (batch (Some []) [updated]) (Some "opaque-token")))
    store
  = (Normal tt, [ResSet "Content-Type" "text/plain"; ResSend "opaque-token"]).
Proof.
  apply (endpoint_validation_echoes_token env
           (with_query (batch (Some []) [updated]) (Some "opaque-token"))
           "opaque-token" store eq_refl).
  discriminate.
Defined.

(** The response to a batch of one valid notification. *)
Lemma response_witness :
  responses (snd (run (router_post env (batch None [updated])) store))
  = [accepted] /\
  last (snd (run (router_post env (batch None [updated])) store))
  = Some accepted.
Proof.
  assert (Hdone : fst (run (router_post env (batch None [updated])) store)
                  = Normal tt)
    by (vm_compute; reflexivity).
  pose proof (response_is_202_exactly_when_completed env
                (batch None [updated]) store eq_refl) as [Hcompleted _].
  exact (Hcompleted Hdone).
Defined.

(** A batch of plain notifications, one of them with the wrong client
    state. *)
Lemma plain_batch_witness :
  fst (run (router_post env (batch None [created; wrong_state; updated]))
         store)
  = Normal tt /\
  responses
    (snd (run (router_post env (batch None [created; wrong_state; updated]))
            store))
  = [accepted].
Proof.
  assert (Htokens : validationTokens
                      (body (batch None [created; wrong_state; updated]))
                    <> Some [])
    by discriminate.
  assert (Hclient : forall subscription,
            store !! "sub-1" = Some subscription ->
            exists client,
              getGraphClientForUser
                (msalClient (batch None [created; wrong_state; updated]))
                (userAccountId subscription) = Normal client).
  { intros subscription Hsub. vm_compute in Hsub.
    inversion Hsub. by exists "u1". }
  assert (Hplain : Forall
    (harmless env (batch None [created; wrong_state; updated]) store)
    (value (body (batch None [created; wrong_state; updated])))).
  { constructor; [| constructor; [| constructor; [| constructor]]].
    - right. split; [reflexivity |]. split; [by eexists | exact Hclient].
    - left. intros [Hstate _]. discriminate Hstate.
    - right. split; [reflexivity |]. split; [by eexists | exact Hclient]. }
  exact (plain_batch_always_completes env
           (batch None [created; wrong_state; updated]) store eq_refl
           Htokens Hplain).
Defined.

(** The log of a batch of two notifications with a valid token. *)
Lemma completed_batch_witness :
  snd (run (router_post env (batch (Some ["token-ok"]) [updated; created]))
         store)
  = ConsoleLogBody (body (batch (Some ["token-ok"]) [updated; created]))
    :: snd (run (areTokensValid env
                   (batch (Some ["token-ok"]) [updated; created])) store)
    ++ concat
         (map (fun n =>
                 snd (run (handleNotification env
                             (batch (Some ["token-ok"]) [updated; created]) n)
                        store))
            [updated; created])
    ++ [accepted].
Proof.
  assert (Hvalid : fst (run (areTokensValid env
                               (batch (Some ["token-ok"]) [updated; created]))
                          store) = Normal true)
    by (vm_compute; reflexivity).
  assert (Hdone : fst (run (router_post env
                              (batch (Some ["token-ok"]) [updated; created]))
                         store) = Normal tt)
    by (vm_compute; reflexivity).
  exact (completed_batch_log env
           (batch (Some ["token-ok"]) [updated; created]) store eq_refl
           Hvalid Hdone).
Defined.

(** A batch with one valid token, and the same batch without tokens. *)
Lemma valid_tokens_witness :
  dispatches
    (snd (run (router_post env (batch (Some ["token-ok"]) [updated])) store))
  = dispatches (snd (run (router_post env (batch None [updated])) store)).
Proof.
  assert (Hsome : ["token-ok"] <> []) by discriminate.
  assert (Hvalid : forall token,
            In token ["token-ok"] ->
            isTokenValid token (OAUTH_CLIENT_ID env) (OAUTH_TENANT_ID env)
            = true).
  { intros token [<- | []]. reflexivity. }
  pose proof (valid_tokens_are_transparent env
                (batch (Some ["token-ok"]) [updated]) ["token-ok"] store
                eq_refl eq_refl Hsome Hvalid) as (_ & Hdispatches & _).
  exact Hdispatches.
Defined.

(** A message whose payload is not JSON, between two valid plain
    notifications: the first is dispatched, the handler throws. *)
Lemma decryption_exception_witness :
  fst (run (router_post env (batch None [updated; signed_junk; created]))
         store)
  = Throw (SyntaxError "Unexpected token j in JSON at position 0") /\
  dispatches
    (snd (run (router_post env (batch None [updated; signed_junk; created]))
            store))
  = dispatches
      (snd (run (for_each
                   (handleNotification env
                      (batch None [updated; signed_junk; created]))
                   [updated]) store)) /\
  responses
    (snd (run (router_post env (batch None [updated; signed_junk; created]))
            store))
  = [].
Proof.
  assert (Hvalid : fst (run (areTokensValid env
                               (batch None [updated; signed_junk; created]))
                          store) = Normal true)
    by reflexivity.
  assert (Hbefore : fst (run (for_each
                                (handleNotification env
                                   (batch None [updated; signed_junk; created]))
                                [updated]) store) = Normal tt)
    by (vm_compute; reflexivity).
  assert (Hsub : store !! subscriptionId signed_junk
                 = Some {| userAccountId := "u1" |})
    by (vm_compute; reflexivity).
  assert (Hthrown : fst (run (processEncryptedNotification env signed_junk)
                           store)
                    = Throw (SyntaxError
                               "Unexpected token j in JSON at position 0"))
    by (vm_compute; reflexivity).
  exact (decryption_exception_leaves_the_handler env
           (batch None [updated; signed_junk; created]) [updated] signed_junk
           [created] {| userAccountId := "u1" |}
           {| data := "cipher-of-junk";
              dataSignature := "k1/cipher-of-junk";
              dataKey := "wrapped-k1" |}
           (SyntaxError "Unexpected token j in JSON at position 0") store
           eq_refl Hvalid eq_refl Hbefore eq_refl Hsub eq_refl Hthrown).
Defined.

End Samples.
